(** * AutoLabMCP: the isolated plugin lifecycle engine

    A shallow embedding of the dynamic tool server: the environment manager's
    directory scan and metadata cache ([tools/tool_env_manager.py]), the
    execution worker ([tools/tool_execution_script.py]), the tool proxy
    ([tools/tool_proxy.py]), and the change tracker and dynamic loader of
    [dynamic_mcp_server.py].

    Python dictionaries are finite maps ([gmap]); a dictionary object that is
    shared between holders and mutated in place (a tool descriptor) lives in
    an explicit object store and is named by its location. *)

From Stdlib Require Import QArith Qcanon.
From stdpp Require Import base option list strings gmap fin_maps pretty numbers sorting.

Set Warnings "-register-all,-clear-no-such-hyp".


(** ** Python values *)

(** The values that travel through descriptors, arguments and results: the
    JSON types, a bound method ([proxy.__call__], identified by the proxy
    object it is bound to) and any other object, carried with its [str()]. *)
Inductive pyval :=
  | PNone
  | PBool (b : bool)
  | PInt (n : Z)
  | PStr (s : string)
  | PList (l : list pyval)
  | PDict (d : gmap string pyval)
  | PMethod (owner : N)
  | PObject (repr : string).

(** Python's [==] on these values is structural; dictionaries compare as
    maps, whatever their insertion order. *)
Global Instance pyval_eq_dec : EqDecision pyval.
Proof.
  refine (fix go (x y : pyval) {struct x} : Decision (x = y) :=
    let _ : EqDecision pyval := @go in
    match x, y with
    | PNone, PNone => left _
    | PBool a, PBool b => cast_if (decide (a = b))
    | PInt a, PInt b => cast_if (decide (a = b))
    | PStr a, PStr b => cast_if (decide (a = b))
    | PList a, PList b => cast_if (decide (a = b))
    | PDict a, PDict b => cast_if (decide (a = b))
    | PMethod a, PMethod b => cast_if (decide (a = b))
    | PObject a, PObject b => cast_if (decide (a = b))
    | _, _ => right _
    end); abstract congruence.
Defined.

(** [json.dumps(obj)] succeeds: every leaf is a JSON scalar. *)
Fixpoint json_serializable (v : pyval) : bool :=
  match v with
  | PNone | PBool _ | PInt _ | PStr _ => true
  | PList l => forallb json_serializable l
  | PDict d => map_fold (fun _ x acc => json_serializable x && acc) true d
  | PMethod _ | PObject _ => false
  end.

(** Truth value of an object in a condition ([if x:]). *)
Definition truthy (v : pyval) : bool :=
  match v with
  | PNone => false
  | PBool b => b
  | PInt n => negb (n =? 0)%Z
  | PStr s => negb (String.eqb s "")
  | PList l => negb (bool_decide (l = []))
  | PDict d => negb (bool_decide (d = ∅))
  | PMethod _ | PObject _ => true
  end.

(** [dict.get(key)] and [dict.get(key, default)]. *)
Definition dict_get (d : gmap string pyval) (key : string) : pyval :=
  default PNone (d !! key).

Definition dict_get_default (d : gmap string pyval) (key : string) (dflt : pyval) : pyval :=
  default dflt (d !! key).

(** ** Strings *)

(** [sub in s] for strings. *)
Fixpoint str_contains (sub s : string) : bool :=
  String.prefix sub s ||
  match s with
  | EmptyString => false
  | String _ s' => str_contains sub s'
  end.

(** [s.split(sep)[0]] for a one-character separator: the text before the
    first separator, the whole string when there is none. *)
Fixpoint split_head (sep : Ascii.ascii) (s : string) : string :=
  match s with
  | EmptyString => EmptyString
  | String c s' => if Ascii.eqb c sep then EmptyString else String c (split_head sep s')
  end.

Definition hyphen : Ascii.ascii := Ascii.ascii_of_nat 45.
Definition newline : Ascii.ascii := Ascii.ascii_of_nat 10.

(** The character classes of the environment-name pattern. *)
Definition is_letter (c : Ascii.ascii) : bool :=
  let n := Ascii.nat_of_ascii c in
  ((65 <=? n) && (n <=? 90) || (97 <=? n) && (n <=? 122))%nat.

Definition is_word_char (c : Ascii.ascii) : bool :=
  let n := Ascii.nat_of_ascii c in
  is_letter c || ((48 <=? n) && (n <=? 57))%nat || (n =? 95)%nat.

(** [[a-zA-Z0-9_]*$]: word characters up to the end of the string, where
    [$] also matches just before a final newline. *)
Fixpoint word_tail (s : string) : bool :=
  match s with
  | EmptyString => true
  | String c s' =>
      (is_word_char c && word_tail s') ||
      (Ascii.eqb c newline && String.eqb s' EmptyString)
  end.

(** [re.match(r'^[a-zA-Z][a-zA-Z0-9_]*$', name)], the check that
    [tool_environment_create] applies to a new environment's name. *)
Definition environment_name_matches (environment_name : string) : bool :=
  match environment_name with
  | EmptyString => false
  | String c s' => is_letter c && word_tail s'
  end.

(** ** The object store *)

(** A tool descriptor is a Python dictionary object. The cache, the loaded
    tool set and the proxies hold references to the same object, so the
    dictionaries live in a store and are named by their location. *)
Definition alloc (heap : gmap positive (gmap string pyval)) (d : gmap string pyval)
    : positive * gmap positive (gmap string pyval) :=
  let l := fresh (dom heap) in (l, <[l := d]> heap).

Fixpoint alloc_all (heap : gmap positive (gmap string pyval)) (ds : list (gmap string pyval))
    : list positive * gmap positive (gmap string pyval) :=
  match ds with
  | [] => ([], heap)
  | d :: ds' =>
      let '(l, heap1) := alloc heap d in
      let '(ls, heap2) := alloc_all heap1 ds' in
      (l :: ls, heap2)
  end.

(** [tool_metadata["name"]]: the qualified tool name, a string; [None] when
    the lookup raises. The introspection worker only emits string names, and
    a name of another type is treated like a missing one. *)
Definition tool_name_of (d : gmap string pyval) : option string :=
  match d !! "name" with
  | Some (PStr n) => Some n
  | _ => None
  end.

(** ** Environment manager: directory scan and metadata cache
    ([tools/tool_env_manager.py], class [ToolEnvironmentManager]) *)
Module ToolEnvironmentManager.

(** An entry of the plugin root as [iterdir()] yields it, with what the
    manager reads of it: its name, whether it is a directory, and the
    modification time ([st_mtime], a finite float, hence a rational) of each
    file that exists in it. *)
Record Path := {
  name : string;
  is_dir : bool;
  mtimes : gmap string Qc
}.

(** An entry of [tools_cache], as [update_tool_cache] (its only writer)
    builds it: the descriptor objects, the tracked files' modification times
    and the wall-clock time of the load. *)
Record cache_entry := {
  tools : list positive;
  file_mtimes : gmap string Qc;
  last_loaded : Qc
}.

Definition get_tool_directories (tools_dir : list Path) : list Path :=
  List.filter
    (fun item =>
       is_dir item && negb (String.prefix "_" (name item))
       && negb (String.eqb (name item) "__pycache__"))
    tools_dir.

Definition get_tool_file_info (tool_dir : Path) : gmap string Qc :=
  let file_info : gmap string Qc := ∅ in
  let file_info :=
    match mtimes tool_dir !! "tool.py" with
    | Some st_mtime => <["tool.py" := st_mtime]> file_info
    | None => file_info
    end in
  let file_info :=
    match mtimes tool_dir !! "requirements.txt" with
    | Some st_mtime => <["requirements.txt" := st_mtime]> file_info
    | None => file_info
    end in
  file_info.

(** The two loops return [False] at the first offending file, so the result
    is the conjunction of the per-file checks. A [cache_entry] always holds
    its [file_mtimes], so the test for that key has no counterpart here. *)
Definition is_tool_cache_valid (tools_cache : gmap string cache_entry) (tool_dir : Path) : bool :=
  let tool_name := name tool_dir in
  match tools_cache !! tool_name with
  | None => false
  | Some cached_info =>
      let current_file_info := get_tool_file_info tool_dir in
      let cached_file_info := file_mtimes cached_info in
      forallb
        (fun '(file_name, current_mtime) =>
           match cached_file_info !! file_name with
           | None => false
           | Some cached_mtime => negb (bool_decide (cached_mtime < current_mtime)%Qc)
           end)
        (map_to_list current_file_info)
      && forallb
           (fun '(file_name, _) => bool_decide (is_Some (current_file_info !! file_name)))
           (map_to_list cached_file_info)
  end.

Definition update_tool_cache (tool_dir : Path) (tools_data : list positive) (now : Qc)
    (tools_cache : gmap string cache_entry) : gmap string cache_entry :=
  let tool_name := name tool_dir in
  let file_info := get_tool_file_info tool_dir in
  <[tool_name := {| tools := tools_data; file_mtimes := file_info; last_loaded := now |}]>
    tools_cache.

(** The answer of [clear_cache]. *)
Record cache_reply := { status : string; message : string }.

(** [if tool_name:] holds for a non-empty name; [None] and the empty string
    both take the clear-everything branch. *)
Definition clear_cache (tool_name : option string) (tools_cache : gmap string cache_entry)
    : cache_reply * gmap string cache_entry :=
  match tool_name with
  | Some n =>
      if negb (String.eqb n "") then
        if bool_decide (is_Some (tools_cache !! n)) then
          ({| status := "success"; message := "Cache cleared for " +:+ n |},
           delete n tools_cache)
        else
          ({| status := "warning"; message := "No cache found for " +:+ n |}, tools_cache)
      else
        let cache_count := size tools_cache in
        ({| status := "success";
            message := "Cleared cache for " +:+ pretty cache_count +:+ " tools" |}, ∅)
  | None =>
      let cache_count := size tools_cache in
      ({| status := "success";
          message := "Cleared cache for " +:+ pretty cache_count +:+ " tools" |}, ∅)
  end.

Definition invalidate_tool_cache (tool_name : string) (tools_cache : gmap string cache_entry)
    : bool * gmap string cache_entry :=
  if bool_decide (is_Some (tools_cache !! tool_name)) then (true, delete tool_name tools_cache)
  else (false, tools_cache).

(** What [load_tools_from_environment] hands back once the introspection
    worker has run: a dictionary that may hold ["error"] and may hold
    ["tools"] (freshly parsed descriptor dictionaries). *)
Record env_result := {
  res_error : option string;
  res_tools : option (list (gmap string pyval))
}.

(** The world outside the manager during one [load_all_tools]: the plugin
    root's listing, the outcome of introspecting a directory, and the clock
    read when its cache entry is written. *)
Record world := {
  listing : list Path;
  load_tools_from_environment : Path -> env_result;
  time : Path -> Qc
}.

Record load_state := {
  heap : gmap positive (gmap string pyval);
  tools_cache : gmap string cache_entry;
  all_tools : gmap string positive;
  errors : list (string * string);
  cache_hits : nat;
  cache_misses : nat
}.

(** [for tool_metadata in ...: all_tools[tool_metadata["name"]] = tool_metadata];
    [None] when a descriptor has no name (the lookup raises). *)
Fixpoint add_tools (heap : gmap positive (gmap string pyval)) (metadata : list positive)
    (all_tools : gmap string positive) : option (gmap string positive) :=
  match metadata with
  | [] => Some all_tools
  | tool_metadata :: rest =>
      match tool_name_of (heap !!! tool_metadata) with
      | Some tool_name => add_tools heap rest (<[tool_name := tool_metadata]> all_tools)
      | None => None
      end
  end.

(** One turn of the loop of [load_all_tools] over the tool directories. *)
Definition load_directory (w : world) (request_tool_dir : option string) (tool_dir : Path)
    (st : load_state) : option load_state :=
  if bool_decide (is_Some request_tool_dir ∧ request_tool_dir ≠ Some (name tool_dir)) then Some st
  else if is_tool_cache_valid (tools_cache st) tool_dir then
    match tools_cache st !! name tool_dir with
    | None => None
    | Some cached_data =>
        all_tools' ← add_tools (heap st) (tools cached_data) (all_tools st);
        Some {| heap := heap st; tools_cache := tools_cache st; all_tools := all_tools';
                errors := errors st; cache_hits := S (cache_hits st);
                cache_misses := cache_misses st |}
    end
  else
    let result := load_tools_from_environment w tool_dir in
    match res_error result, res_tools result with
    | Some e, _ =>
        Some {| heap := heap st; tools_cache := tools_cache st; all_tools := all_tools st;
                errors := errors st ++ [(name tool_dir, e)]; cache_hits := cache_hits st;
                cache_misses := S (cache_misses st) |}
    | None, Some descriptors =>
        let '(metadata, heap') := alloc_all (heap st) descriptors in
        all_tools' ← add_tools heap' metadata (all_tools st);
        Some {| heap := heap';
                tools_cache := update_tool_cache tool_dir metadata (time w tool_dir) (tools_cache st);
                all_tools := all_tools'; errors := errors st; cache_hits := cache_hits st;
                cache_misses := S (cache_misses st) |}
    | None, None =>
        Some {| heap := heap st; tools_cache := tools_cache st; all_tools := all_tools st;
                errors := errors st; cache_hits := cache_hits st;
                cache_misses := S (cache_misses st) |}
    end.

Fixpoint load_directories (w : world) (request_tool_dir : option string) (dirs : list Path)
    (st : load_state) : option load_state :=
  match dirs with
  | [] => Some st
  | tool_dir :: rest =>
      match load_directory w request_tool_dir tool_dir st with
      | Some st' => load_directories w request_tool_dir rest st'
      | None => None
      end
  end.

(** [load_all_tools]: the final [load_state] carries the returned report
    ([tools], [errors], the cache statistics) and the manager's state. *)
Definition load_all_tools (w : world) (request_tool_dir : option string)
    (heap0 : gmap positive (gmap string pyval)) (cache0 : gmap string cache_entry)
    : option load_state :=
  load_directories w request_tool_dir (get_tool_directories (listing w))
    {| heap := heap0; tools_cache := cache0; all_tools := ∅; errors := [];
       cache_hits := 0; cache_misses := 0 |}.

(** What the loop of [load_all_tools] maintains: every returned descriptor
    object carries the name it is returned under, and is one of the objects
    of the cache entry of a directory already visited. *)
Definition returned_from_cache (visited : list string) (st : load_state) : Prop :=
  forall n l, all_tools st !! n = Some l ->
    tool_name_of (heap st !!! l) = Some n /\
    exists D entry, D ∈ visited /\ tools_cache st !! D = Some entry /\ l ∈ tools entry.

End ToolEnvironmentManager.

(** ** Change tracker ([dynamic_mcp_server.py], class [ToolChangeManager]) *)
Module ToolChangeManager.

(** [{"old": ..., "new": ...}] *)
Record value_change := { old : pyval; new : pyval }.

(** The entries of [changes["added"]] and [changes["removed"]]. *)
Record tool_entry := { name : string; details : gmap string pyval }.

(** The entries of [changes["modified"]]. *)
Record modified_entry := {
  modified_name : string;
  previous : gmap string pyval;
  current : gmap string pyval;
  differences : gmap string value_change
}.

Record changes := {
  added : list tool_entry;
  removed : list tool_entry;
  modified : list modified_entry
}.

(** [{"timestamp": ..., "changes": ...}] *)
Record change_record := { timestamp : string; recorded : changes }.

Record t := {
  previous_tools : gmap string (gmap string pyval);
  current_tools : gmap string (gmap string pyval);
  change_history : list change_record
}.

(** [__init__] *)
Definition init : t :=
  {| previous_tools := ∅; current_tools := ∅; change_history := [] |}.

Definition _get_detailed_diff (old_desc new_desc : gmap string pyval)
    : gmap string value_change :=
  let all_keys : gset string := dom old_desc ∪ dom new_desc in
  set_fold
    (fun key differences =>
       let old_value := dict_get old_desc key in
       let new_value := dict_get new_desc key in
       if bool_decide (old_value ≠ new_value)
       then <[key := {| old := old_value; new := new_value |}]> differences
       else differences)
    ∅ all_keys.

(** The three loops of [detect_changes]; a dictionary is walked through
    [map_to_list]. *)
Definition detect_changes (previous_tools current_tools : gmap string (gmap string pyval))
    : changes :=
  {| added :=
       omap (fun '(tool_name, desc) =>
               if bool_decide (previous_tools !! tool_name = None)
               then Some {| name := tool_name; details := desc |}
               else None)
            (map_to_list current_tools);
     removed :=
       omap (fun '(tool_name, desc) =>
               if bool_decide (current_tools !! tool_name = None)
               then Some {| name := tool_name; details := desc |}
               else None)
            (map_to_list previous_tools);
     modified :=
       omap (fun '(tool_name, desc) =>
               match previous_tools !! tool_name with
               | Some previous_desc =>
                   if bool_decide (desc ≠ previous_desc)
                   then Some {| modified_name := tool_name;
                                previous := previous_desc;
                                current := desc;
                                differences := _get_detailed_diff previous_desc desc |}
                   else None
               | None => None
               end)
            (map_to_list current_tools) |}.

(** [len(changes["added"]) or len(changes["modified"]) or len(changes["removed"])];
    the [changes] dictionary itself always holds three keys, so it is true. *)
Definition has_changes (c : changes) : bool :=
  negb (bool_decide (added c = [])) || negb (bool_decide (modified c = []))
  || negb (bool_decide (removed c = [])).

(** [update_tools]; [now] is [datetime.now().isoformat()] read at the call. *)
Definition update_tools (existing_tools_desc new_tools_desc : gmap string (gmap string pyval))
    (now : string) (self : t) : changes * t :=
  let changes := detect_changes existing_tools_desc new_tools_desc in
  let change_history :=
    if has_changes changes
    then change_history self ++ [{| timestamp := now; recorded := changes |}]
    else change_history self in
  (changes,
   {| previous_tools := existing_tools_desc;
      current_tools := new_tools_desc;
      change_history := change_history |}).

Record change_summary := {
  current_tools_count : nat;
  previous_tools_count : nat;
  recent_changes : list change_record;
  tool_details_current : list string;
  tool_details_previous : list string
}.

(** [get_change_summary]; [change_history[-2:]] is the last two entries (all
    of them when there are fewer). *)
Definition get_change_summary (self : t) : change_summary :=
  {| current_tools_count := size (current_tools self);
     previous_tools_count := size (previous_tools self);
     recent_changes :=
       match change_history self with
       | [] => []
       | _ => drop (length (change_history self) - 2) (change_history self)
       end;
     tool_details_current := (map_to_list (current_tools self)).*1;
     tool_details_previous := (map_to_list (previous_tools self)).*1 |}.

(** The states the tracker can be in: [reaches times s] holds when [s] is
    what a sequence of [update_tools] calls, made at the clock readings
    [times] (oldest first), leaves behind. *)
Inductive reaches : list string -> t -> Prop :=
  | reaches_init : reaches [] init
  | reaches_update times s existing_tools_desc new_tools_desc now :
      reaches times s ->
      reaches (times ++ [now]) (update_tools existing_tools_desc new_tools_desc now s).2.

(** The log never exceeds some fixed length. *)
Definition history_bounded : Prop :=
  exists bound : nat, forall times s, reaches times s -> length (change_history s) <= bound.

(** A recorded diff holds at least one entry. *)
Definition nonempty_diff (c : changes) : Prop :=
  added c ≠ [] ∨ removed c ≠ [] ∨ modified c ≠ [].

(** The names a list of entries reports. *)
Definition entry_names (l : list tool_entry) : gset string := list_to_set (name <$> l).

Definition modified_names (l : list modified_entry) : gset string :=
  list_to_set (modified_name <$> l).


(** A run used to exercise the log: a tool whose description alternates
    between two texts, so that every update records a modification. *)
Definition flip (b : bool) : gmap string (gmap string pyval) :=
  {[ "calc-add" := {[ "description" := PStr (if b then "v1" else "v2") ]} ]}.

Fixpoint churn (n : nat) : t :=
  match n with
  | 0 => init
  | S n' => (update_tools (flip (Nat.even n')) (flip (Nat.odd n')) "t" (churn n')).2
  end.

End ToolChangeManager.

(** ** Text of values *)

(** [repr(name)] of an identifier, and [repr] of a list of identifiers as an
    f-string prints it. *)
Definition repr_str (s : string) : string := "'" +:+ s +:+ "'".


(** [str(obj)]: a string is itself, an opaque object carries its text, and
    the other values print as their [repr] (string escapes left aside). *)
Fixpoint py_repr (v : pyval) : string :=
  match v with
  | PNone => "None"
  | PBool true => "True"
  | PBool false => "False"
  | PInt n => pretty n
  | PStr s => repr_str s
  | PList l => "[" +:+ String.concat ", " (List.map py_repr l) +:+ "]"
  | PDict d =>
      "{" +:+ String.concat ", "
                (List.map (fun kv => repr_str kv.1 +:+ ": " +:+ kv.2)
                          (map_to_list (py_repr <$> d))) +:+ "}"
  | PMethod _ => "<bound method ToolProxy.__call__>"
  | PObject repr => repr
  end.

Definition py_str (v : pyval) : string :=
  match v with
  | PStr s => s
  | _ => py_repr v
  end.

(** [needle] occurs somewhere in [text]. *)
Definition occurs_in (needle text : string) : Prop :=
  exists before after, text = before +:+ needle +:+ after.

(** ** Execution worker ([tools/tool_execution_script.py]) *)
Module tool_execution_script.

(** A raised exception, as the worker reports it: [str(e)] and
    [traceback.format_exc()]. *)
Record exn := { exn_text : string; exn_traceback : string }.

(** What calling a plugin function does. *)
Inductive outcome :=
  | Returns (result : pyval)
  | Raises (e : exn).

(** An attribute of the loaded module: a callable with its behaviour on
    positional and keyword arguments, or any other object. *)
Inductive attribute :=
  | Callable (func : list pyval -> gmap string pyval -> outcome)
  | NotCallable (v : pyval).


(** [dir(module)]: the attribute names in sorted order. *)
Definition dir (module : gmap string attribute) : list string :=
  merge_sort (fun a b => Is_true (String.leb a b)) (map_to_list module).*1.



End tool_execution_script.

(** ** Tool proxy ([tools/tool_proxy.py], class [ToolProxy]) *)
Module ToolProxy.

Record t := {
  proxy_id : N;
  tool_data : positive;
  tool_dir : string;
  python_executable : string;
  tool_name : string;
  function_name : pyval
}.

(** What [subprocess.run(..., timeout=60)] does. *)
Inductive run_result :=
  | TimeoutExpired
  | Completed (stdout : string).

Inductive exception :=
  | FileNotFoundError (text : string)
  | TypeError
  | AttributeError
  | KeyError (key : string)
  | RuntimeError (text : string)
  | TimeoutError (text : string).

Inductive call_result :=
  | Return (v : pyval)
  | Raise (e : exception).

(** The world around one call: whether the worker script is on disk, the
    child process (given the interpreter, the parameters and the working
    directory), and [json.loads] ([None] for a [JSONDecodeError]). *)
Record world := {
  script_exists : bool;
  subprocess_run : string -> pyval -> string -> run_result;
  json_loads : string -> option pyval
}.

(** The [params] dictionary handed to the worker; [json.dumps] raises a
    [TypeError] when an argument is not serializable. *)
Definition call_params (self : t) (args : list pyval) (kwargs : gmap string pyval) : pyval :=
  PDict {[ "module_path" := PStr "tool.py";
           "function_name" := function_name self;
           "args" := PList args;
           "kwargs" := PDict kwargs ]}.

Definition __call__ (w : world) (self : t) (args : list pyval) (kwargs : gmap string pyval)
    : call_result :=
  if negb (script_exists w) then
    Raise (FileNotFoundError "Tool execution script not found")
  else
    let params := call_params self args kwargs in
    if negb (json_serializable params) then Raise TypeError
    else
      match subprocess_run w (python_executable self) params (tool_dir self) with
      | TimeoutExpired =>
          Raise (TimeoutError ("Tool " +:+ tool_name self +:+ " execution timeout (>60s)"))
      | Completed stdout =>
          match json_loads w stdout with
          | None => Return (PStr stdout)
          | Some (PDict output) =>
              if truthy (dict_get output "success") then
                match output !! "result" with
                | Some result => Return result
                | None => Raise (KeyError "result")
                end
              else
                Raise (RuntimeError
                         ("Tool execution error: "
                          +:+ py_str (dict_get_default output "error" (PStr ""))
                          +:+ String newline EmptyString
                          +:+ py_str (dict_get_default output "traceback" (PStr ""))))
          | Some _ => Raise AttributeError
          end
      end.

End ToolProxy.

(** ** The registry's tools (FastMCP, outside the repository) *)

(** [s.split(sep)[-1]] for a one-character separator: the text after the
    last separator. *)
Fixpoint split_last (sep : Ascii.ascii) (s : string) : string :=
  match s with
  | EmptyString => EmptyString
  | String c s' =>
      if str_contains (String sep EmptyString) s' then split_last sep s'
      else if Ascii.eqb c sep then s' else s
  end.

(** Modelled from the spec: the outward registry is consumed through its
    interface only ([add(tool)], [remove(name)], [list()]); its tool objects
    belong to FastMCP. [model_validate] builds a tool from a dictionary
    ([None] when it raises), [model_dump] gives its fields back as a
    dictionary, which always holds the executable handle under ["fn"], and
    [key] is the name the registry files the tool under. *)
Class FastMCP := {
  FunctionTool : Type;
  model_validate : gmap string pyval -> option FunctionTool;
  model_dump : FunctionTool -> gmap string pyval;
  key : FunctionTool -> string;
  model_dump_fn : forall function_tool, is_Some (model_dump function_tool !! "fn")
}.

(** ** Dynamic loader ([dynamic_mcp_server.py], class [DynamicToolLoader]) *)
Module DynamicToolLoader.

(** An entry of the loaded tool set: [{"tool_data", "proxy", "tool_dir",
    "python_exe"}]; [tool_data] is a reference to the descriptor object. *)
Record tool_info := {
  tool_data : positive;
  proxy : ToolProxy.t;
  tool_dir : string;
  python_exe : string
}.

(** The world around a scan: the environment manager's world, whether
    [tools_dir / name] exists, and [get_python_executable] for it ([None]
    when it raises). *)
Record world := {
  env : ToolEnvironmentManager.world;
  path_exists : string -> bool;
  get_python_executable : string -> option string
}.

(** [ToolProxyManager.create_proxy], with the identity of the new object. *)
Definition create_proxy (tool_data : positive) (descriptor : gmap string pyval)
    (tool_dir python_exe : string) (id : N) : option ToolProxy.t :=
  match tool_name_of descriptor with
  | None => None
  | Some tool_name =>
      Some {| ToolProxy.proxy_id := id;
              ToolProxy.tool_data := tool_data;
              ToolProxy.tool_dir := tool_dir;
              ToolProxy.python_executable := python_exe;
              ToolProxy.tool_name := tool_name;
              ToolProxy.function_name :=
                match descriptor !! "function_name" with
                | Some f => f
                | None => PStr (split_last (Ascii.ascii_of_nat 46) tool_name)
                end |}
  end.

(** The keys [register_tools_to_mcp] leaves out of the validated dictionary. *)
Definition provenance_keys : list string :=
  ["source_module"; "function_name"; "tool_name_prefix"].

Definition without_provenance (tool_data : gmap string pyval) : gmap string pyval :=
  filter (fun kv => kv.1 ∉ provenance_keys) tool_data.

Section loader.
Context `{FastMCP}.

(** The server's mutable state: the object store, the environment manager's
    cache, the proxy manager's table (and the identity of the next proxy
    object), the registry ([mcp._tool_manager._tools]) and the global change
    manager. *)
Record server := {
  heap : gmap positive (gmap string pyval);
  tools_cache : gmap string ToolEnvironmentManager.cache_entry;
  proxies : gmap string ToolProxy.t;
  next_proxy : N;
  registry : gmap string FunctionTool;
  change_manager : ToolChangeManager.t
}.

(** [mcp.add_tool(tool)] and [mcp.remove_tool(name)]. *)
Definition add_tool (function_tool : FunctionTool) (registry : gmap string FunctionTool)
    : gmap string FunctionTool :=
  <[key function_tool := function_tool]> registry.

Definition remove_tool (tool_name : string) (registry : gmap string FunctionTool)
    : gmap string FunctionTool :=
  delete tool_name registry.

(** One turn of the loop of [scan_and_load_tools] over the loaded
    descriptors: the accumulator is [new_tools], the proxy table and the next
    proxy identity. A failure to create the proxy is logged and the tool is
    left out. *)
Definition scan_tool (w : world) (heap : gmap positive (gmap string pyval))
    (tool_name : string) (tool_data : positive)
    (acc : gmap string tool_info * gmap string ToolProxy.t * N)
    : gmap string tool_info * gmap string ToolProxy.t * N :=
  let '(new_tools, proxies, next) := acc in
  let tool_dir_name := split_head hyphen tool_name in
  if path_exists w tool_dir_name then
    match get_python_executable w tool_dir_name with
    | None => acc
    | Some python_exe =>
        match create_proxy tool_data (heap !!! tool_data) tool_dir_name python_exe next with
        | None => acc
        | Some proxy =>
            (<[tool_name := {| tool_data := tool_data; proxy := proxy;
                               tool_dir := tool_dir_name; python_exe := python_exe |}]>
               new_tools,
             <[tool_name := proxy]> proxies,
             N.succ next)
        end
    end
  else acc.

Definition scan_and_load_tools (w : world) (request_tool_name : option string) (s : server)
    : option (gmap string tool_info * server) :=
  match ToolEnvironmentManager.load_all_tools (env w)
          (split_head hyphen <$> request_tool_name) (heap s) (tools_cache s) with
  | None => None
  | Some load_result =>
      let '(new_tools, proxies', next') :=
        map_fold (scan_tool w (ToolEnvironmentManager.heap load_result))
          (∅, proxies s, next_proxy s) (ToolEnvironmentManager.all_tools load_result) in
      Some (new_tools,
            {| heap := ToolEnvironmentManager.heap load_result;
               tools_cache := ToolEnvironmentManager.tools_cache load_result;
               proxies := proxies';
               next_proxy := next';
               registry := registry s;
               change_manager := change_manager s |})
  end.

(** [{k: v.model_dump() for k, v in existing_tools.items() if "-" in k}],
    each without its ["fn"]. *)
Definition existing_descriptions (existing_tools : gmap string FunctionTool)
    : gmap string (gmap string pyval) :=
  (fun v => delete "fn" (model_dump v))
    <$> filter (fun kv => Is_true (str_contains "-" kv.1)) existing_tools.

(** The tool the registration loop builds for an entry of the loaded set,
    given the descriptor object as the store holds it. *)
Definition validated (heap : gmap positive (gmap string pyval)) (info : tool_info)
    : option FunctionTool :=
  model_validate
    (without_provenance
       (<["fn" := PMethod (ToolProxy.proxy_id (proxy info))]> (heap !!! tool_data info))).

(** One turn of the registration loop: the accumulator is the object store,
    the registry and [new_tools_desc]. The assignment to [tool_data["fn"]]
    comes first; when validation raises, the error is logged and nothing
    else happens for this tool. *)
Definition register_tool (tool_name : string) (info : tool_info)
    (acc : gmap positive (gmap string pyval) * gmap string FunctionTool
           * gmap string (gmap string pyval))
    : gmap positive (gmap string pyval) * gmap string FunctionTool
      * gmap string (gmap string pyval) :=
  let '(heap, existing_tools, new_tools_desc) := acc in
  let tool_data :=
    <["fn" := PMethod (ToolProxy.proxy_id (proxy info))]> (heap !!! tool_data info) in
  let heap := <[DynamicToolLoader.tool_data info := tool_data]> heap in
  match model_validate (without_provenance tool_data) with
  | None => (heap, existing_tools, new_tools_desc)
  | Some function_tool =>
      let existing_tools :=
        if bool_decide (is_Some (existing_tools !! tool_name))
        then remove_tool tool_name existing_tools
        else existing_tools in
      let existing_tools := add_tool function_tool existing_tools in
      let tool_desc := delete "fn" (model_dump function_tool) in
      (heap, existing_tools, <[tool_name := tool_desc]> new_tools_desc)
  end.

(** One turn of the removal loop over [existing_tools_desc]. *)
Definition remove_absent (tools : gmap string tool_info) (request_tool_dir : option string)
    (tool_name : string) (existing_tools : gmap string FunctionTool)
    : gmap string FunctionTool :=
  if bool_decide (tools !! tool_name = None) && str_contains "-" tool_name then
    match request_tool_dir with
    | Some dir =>
        if negb (String.prefix (dir +:+ ".") tool_name) then existing_tools
        else remove_tool tool_name existing_tools
    | None => remove_tool tool_name existing_tools
    end
  else existing_tools.

(** [request_tool_name.split("-")[0] if request_tool_name is not None else
    self.tools_dir.name]: a directory name in either case, never [None]. *)
Definition request_tool_dir (tools_dir_name : string) (request_tool_name : option string)
    : option string :=
  match request_tool_name with
  | Some n => Some (split_head hyphen n)
  | None => Some tools_dir_name
  end.

(** [register_tools_to_mcp]; [tools_dir_name] is [self.tools_dir.name] and
    [now] the clock reading of the change manager. *)
Definition register_tools_to_mcp (tools_dir_name : string) (now : string)
    (tools : gmap string tool_info) (request_tool_name : option string) (s : server)
    : ToolChangeManager.changes * server :=
  let existing_tools_desc := existing_descriptions (registry s) in
  let request_tool_dir := request_tool_dir tools_dir_name request_tool_name in
  let '(heap', existing_tools, new_tools_desc) :=
    map_fold register_tool (heap s, registry s, ∅) tools in
  let existing_tools :=
    map_fold (fun tool_name _ => remove_absent tools request_tool_dir tool_name)
      existing_tools existing_tools_desc in
  let '(changes, change_manager') :=
    ToolChangeManager.update_tools existing_tools_desc new_tools_desc now (change_manager s) in
  (changes,
   {| heap := heap';
      tools_cache := tools_cache s;
      proxies := proxies s;
      next_proxy := next_proxy s;
      registry := existing_tools;
      change_manager := change_manager' |}).

(** The tool the registration loop registers under a loaded name, if any. *)
Definition registered_tool (heap : gmap positive (gmap string pyval))
    (tools : gmap string tool_info) (n : string) : option FunctionTool :=
  tools !! n ≫= validated heap.

(** The registry files every validated tool of [tools] under the name it is
    loaded under. *)
Definition keys_agree (heap : gmap positive (gmap string pyval))
    (tools : gmap string tool_info) : Prop :=
  forall n info function_tool,
    tools !! n = Some info -> validated heap info = Some function_tool ->
    key function_tool = n.

(** Two stores hold the same descriptors up to their ["fn"] entries. *)
Definition same_but_fn (h1 h2 : gmap positive (gmap string pyval)) : Prop :=
  forall l, delete "fn" (h1 !!! l) = delete "fn" (h2 !!! l).

(** The condition under which the removal loop unregisters a name it
    visits. *)
Definition removal_fires (tools : gmap string tool_info) (request_tool_dir : option string)
    (n : string) : bool :=
  bool_decide (tools !! n = None) && str_contains "-" n &&
  match request_tool_dir with
  | Some dir => String.prefix (dir +:+ ".") n
  | None => true
  end.

End loader.

End DynamicToolLoader.

(** ** Sample data

    A registry of plain tools and a few concrete states, to run the
    definitions above on explicit inputs. *)

(** A tool that keeps the validated dictionary: its name, its executable
    handle and the remaining fields. Validation asks for a string ["name"]
    and an ["fn"]. *)
Record plain_tool := {
  plain_name : string;
  plain_fn : pyval;
  plain_fields : gmap string pyval
}.

Definition plain_validate (d : gmap string pyval) : option plain_tool :=
  match d !! "name", d !! "fn" with
  | Some (PStr n), Some f =>
      Some {| plain_name := n; plain_fn := f;
              plain_fields := delete "fn" (delete "name" d) |}
  | _, _ => None
  end.

Definition plain_dump (t : plain_tool) : gmap string pyval :=
  <["fn" := plain_fn t]> (<["name" := PStr (plain_name t)]> (plain_fields t)).

Definition plain_registry : FastMCP :=
  {| FunctionTool := plain_tool;
     model_validate := plain_validate;
     model_dump := plain_dump;
     key := plain_name;
     model_dump_fn := fun t =>
       mk_is_Some _ _ (lookup_insert_eq (<["name" := PStr (plain_name t)]> (plain_fields t))
                         "fn" (plain_fn t)) |}.

(** A plugin [calc] with the functions [add] and [mul], and a plugin [notes]
    with the function [list]. *)
Definition descriptor_of (tool_name description : string) : gmap string pyval :=
  {[ "name" := PStr tool_name; "description" := PStr description ]}.

Definition plain_tool_of (tool_name description : string) (owner : N) : plain_tool :=
  {| plain_name := tool_name; plain_fn := PMethod owner;
     plain_fields := {[ "description" := PStr description ]} |}.

Definition info_of (tool_data : positive) (owner : N) (plugin tool_name function : string)
    : DynamicToolLoader.tool_info :=
  {| DynamicToolLoader.tool_data := tool_data;
     DynamicToolLoader.proxy :=
       {| ToolProxy.proxy_id := owner;
          ToolProxy.tool_data := tool_data;
          ToolProxy.tool_dir := plugin;
          ToolProxy.python_executable := plugin +:+ "/venv/bin/python";
          ToolProxy.tool_name := tool_name;
          ToolProxy.function_name := PStr function |};
     DynamicToolLoader.tool_dir := plugin;
     DynamicToolLoader.python_exe := plugin +:+ "/venv/bin/python" |}.

(** The store holds the descriptors of [calc-add] (at 1) and [calc-mul]
    (at 2). *)
Definition sample_heap : gmap positive (gmap string pyval) :=
  {[ 1%positive := descriptor_of "calc-add" "Add two numbers";
     2%positive := descriptor_of "calc-mul" "Multiply two numbers" ]}.

Definition server_with (registry : gmap string plain_tool)
    : @DynamicToolLoader.server plain_registry :=
  @DynamicToolLoader.Build_server plain_registry
    sample_heap ∅ ∅ 10 registry ToolChangeManager.init.

(** The registry holds [calc-add] and [calc-mul]; the plugin now only has
    [mul]. *)
Definition server_after_edit : @DynamicToolLoader.server plain_registry :=
  server_with {[ "calc-add" := plain_tool_of "calc-add" "Add two numbers" 3;
                 "calc-mul" := plain_tool_of "calc-mul" "Multiply two numbers" 4 ]}.

Definition loaded_mul : gmap string DynamicToolLoader.tool_info :=
  {[ "calc-mul" := info_of 2 5 "calc" "calc-mul" "mul" ]}.

(** The registry holds a tool of the plugin [notes]; [calc-add] is loaded by
    a targeted refresh. *)
Definition server_with_notes : @DynamicToolLoader.server plain_registry :=
  server_with {[ "notes-list" := plain_tool_of "notes-list" "List the notes" 3 ]}.

Definition loaded_add : gmap string DynamicToolLoader.tool_info :=
  {[ "calc-add" := info_of 1 5 "calc" "calc-add" "add" ]}.

(** A modification time given in whole seconds. *)
Definition mtime (seconds : Z) : Qc := Q2Qc (inject_Z seconds).

(** The cache after [calc] was loaded. *)
Definition sample_cache : gmap string ToolEnvironmentManager.cache_entry :=
  {[ "calc" := {| ToolEnvironmentManager.tools := [1%positive; 2%positive];
                  ToolEnvironmentManager.file_mtimes := {[ "tool.py" := mtime 100 ]};
                  ToolEnvironmentManager.last_loaded := mtime 101 |} ]}.

(** The plugin root holds the directory [calc]; introspecting it yields the
    descriptors of [add] and [mul]. *)
Definition calc_dir : ToolEnvironmentManager.Path :=
  {| ToolEnvironmentManager.name := "calc";
     ToolEnvironmentManager.is_dir := true;
     ToolEnvironmentManager.mtimes := {[ "tool.py" := mtime 100 ]} |}.

Definition sample_world : DynamicToolLoader.world :=
  {| DynamicToolLoader.env :=
       {| ToolEnvironmentManager.listing := [calc_dir];
          ToolEnvironmentManager.load_tools_from_environment := fun _ =>
            {| ToolEnvironmentManager.res_error := None;
               ToolEnvironmentManager.res_tools :=
                 Some [descriptor_of "calc-add" "Add two numbers";
                       descriptor_of "calc-mul" "Multiply two numbers"] |};
          ToolEnvironmentManager.time := fun _ => mtime 101 |};
     DynamicToolLoader.path_exists := fun _ => true;
     DynamicToolLoader.get_python_executable := fun dir => Some (dir +:+ "/venv/bin/python") |}.




(** The worker's output line for a successful call that returned 5, and a
    world in which the child prints it; [json.loads] is given on that line. *)
Definition quote : string := String (Ascii.ascii_of_nat 34) EmptyString.

Definition success_line : string :=
  "{" +:+ quote +:+ "success" +:+ quote +:+ ": true, "
      +:+ quote +:+ "result" +:+ quote +:+ ": 5}".

Definition sample_proxy_world : ToolProxy.world :=
  {| ToolProxy.script_exists := true;
     ToolProxy.subprocess_run := fun _ _ _ => ToolProxy.Completed success_line;
     ToolProxy.json_loads := fun text =>
       if String.eqb text success_line
       then Some (PDict {[ "success" := PBool true; "result" := PInt 5 ]})
       else None |}.

Definition calc_add_proxy : ToolProxy.t :=
  DynamicToolLoader.proxy (info_of 1 5 "calc" "calc-add" "add").

(** A scan of the sample plugin root from a fresh server, with the loaded
    tool set and the server state it leaves behind. *)
Definition sample_scan
    : option (gmap string DynamicToolLoader.tool_info * @DynamicToolLoader.server plain_registry) :=
  @DynamicToolLoader.scan_and_load_tools plain_registry sample_world None (server_with ∅).

Definition sample_tools : gmap string DynamicToolLoader.tool_info :=
  from_option fst ∅ sample_scan.

Definition sample_scanned_server : @DynamicToolLoader.server plain_registry :=
  from_option snd (server_with ∅) sample_scan.

(** ** Notions used to state further properties *)

(** The directories a load with the given target works on. *)
Definition requested (request_tool_dir : option string)
    (dirs : list ToolEnvironmentManager.Path) : list ToolEnvironmentManager.Path :=
  List.filter
    (fun D => match request_tool_dir with
              | None => true
              | Some r => String.eqb r (ToolEnvironmentManager.name D)
              end)
    dirs.

(** The sample plugin root loaded from an empty cache, and the state the
    load leaves behind. *)
Definition sample_load : option ToolEnvironmentManager.load_state :=
  ToolEnvironmentManager.load_all_tools (DynamicToolLoader.env sample_world) None sample_heap ∅.

Definition sample_loaded : ToolEnvironmentManager.load_state :=
  default
    {| ToolEnvironmentManager.heap := sample_heap;
       ToolEnvironmentManager.tools_cache := ∅;
       ToolEnvironmentManager.all_tools := ∅;
       ToolEnvironmentManager.errors := [];
       ToolEnvironmentManager.cache_hits := 0;
       ToolEnvironmentManager.cache_misses := 0 |}
    sample_load.

(** A modified entry read in the other direction: the snapshots and the old
    and new values change places. *)
Definition swap_change (c : ToolChangeManager.value_change) : ToolChangeManager.value_change :=
  {| ToolChangeManager.old := ToolChangeManager.new c;
     ToolChangeManager.new := ToolChangeManager.old c |}.

Definition swap_modified (e : ToolChangeManager.modified_entry)
    : ToolChangeManager.modified_entry :=
  {| ToolChangeManager.modified_name := ToolChangeManager.modified_name e;
     ToolChangeManager.previous := ToolChangeManager.current e;
     ToolChangeManager.current := ToolChangeManager.previous e;
     ToolChangeManager.differences := swap_change <$> ToolChangeManager.differences e |}.

(** ** Middleware ([dynamic_mcp_server.py], class [DynamicToolMiddleware]) *)
Module DynamicToolMiddleware.

(** What the hooks read of the request: [context.message.name] and
    [context.message.arguments]. *)
Record context := { name : string; arguments : pyval }.

Section middleware.
Context `{FastMCP}.
Context {ToolResult : Type}.

(** The head of [on_call_tool]: a name that holds a hyphen is rescanned,
    with the name as the target, and the loaded set is reconciled when it is
    not empty; an exception of the scan propagates ([None]). *)
Definition refresh_called_tool (w : DynamicToolLoader.world) (tools_dir_name now : string)
    (tool_name : string) (s : DynamicToolLoader.server) : option DynamicToolLoader.server :=
  if str_contains "-" tool_name then
    match DynamicToolLoader.scan_and_load_tools w (Some tool_name) s with
    | None => None
    | Some (reloaded_tools, s) =>
        if negb (Nat.eqb (size reloaded_tools) 0) then
          Some (DynamicToolLoader.register_tools_to_mcp tools_dir_name now reloaded_tools
                  (Some tool_name) s).2
        else Some s
    end
  else Some s.

(** [on_call_tool]: after the refresh, a name that starts with [browser_]
    goes to the browser client and any other to the rest of the chain,
    which runs on the server as the refresh left it. *)
Definition on_call_tool (w : DynamicToolLoader.world) (tools_dir_name now : string)
    (browser_call_tool : context -> ToolResult)
    (call_next : context -> DynamicToolLoader.server -> ToolResult * DynamicToolLoader.server)
    (ctx : context) (s : DynamicToolLoader.server)
    : option (ToolResult * DynamicToolLoader.server) :=
  match refresh_called_tool w tools_dir_name now (name ctx) s with
  | None => None
  | Some s =>
      if String.prefix "browser_" (name ctx) then Some (browser_call_tool ctx, s)
      else Some (call_next ctx s)
  end.

(** [on_list_tools]: a full scan and a reconciliation with whatever it
    loaded, then the rest of the chain. *)
Definition on_list_tools (w : DynamicToolLoader.world) (tools_dir_name now : string)
    (call_next : context -> DynamicToolLoader.server -> ToolResult * DynamicToolLoader.server)
    (ctx : context) (s : DynamicToolLoader.server)
    : option (ToolResult * DynamicToolLoader.server) :=
  match DynamicToolLoader.scan_and_load_tools w None s with
  | None => None
  | Some (tools, s) =>
      Some (call_next ctx
              (DynamicToolLoader.register_tools_to_mcp tools_dir_name now tools None s).2)
  end.

End middleware.

End DynamicToolMiddleware.

(** A call of [calc-add] with two arguments, a chain that answers nothing
    and leaves the server alone, and the scan the call triggers on a fresh
    server. *)
Definition sample_context : DynamicToolMiddleware.context :=
  {| DynamicToolMiddleware.name := "calc-add";
     DynamicToolMiddleware.arguments := PDict {[ "a" := PInt 2; "b" := PInt 3 ]} |}.

Definition idle_chain (ctx : DynamicToolMiddleware.context)
    (s : @DynamicToolLoader.server plain_registry)
    : pyval * @DynamicToolLoader.server plain_registry :=
  (PNone, s).

Definition sample_call_scan
    : option (gmap string DynamicToolLoader.tool_info * @DynamicToolLoader.server plain_registry) :=
  @DynamicToolLoader.scan_and_load_tools plain_registry sample_world
    (Some (DynamicToolMiddleware.name sample_context)) (server_with ∅).

Definition sample_call_tools : gmap string DynamicToolLoader.tool_info :=
  from_option fst ∅ sample_call_scan.

Definition sample_call_server : @DynamicToolLoader.server plain_registry :=
  from_option snd (server_with ∅) sample_call_scan.

(** ** Introspection worker ([tools/tool_loader_script.py]) *)
Module tool_loader_script.

(** [f"{tool_name_prefix}-{name}" if tool_name_prefix else name]: the name a
    function of a plugin is exported under; the prefix is the name of the
    plugin's directory. *)
Definition tool_name (tool_name_prefix name : string) : string :=
  if negb (String.eqb tool_name_prefix "") then tool_name_prefix +:+ "-" +:+ name
  else name.

End tool_loader_script.

(** * Properties *)

(** ** Metadata cache and directory scan *)
Section env_manager_facts.
Import ToolEnvironmentManager.

Lemma get_tool_file_info_lookup (tool_dir : Path) (f : string) (m : Qc) :
  get_tool_file_info tool_dir !! f = Some m ↔
  (f = "tool.py" ∨ f = "requirements.txt") ∧ mtimes tool_dir !! f = Some m.
Proof.
  unfold get_tool_file_info.
  destruct (decide (f = "tool.py")) as [-> | Hf1];
    [|destruct (decide (f = "requirements.txt")) as [-> | Hf2]].
  - destruct (mtimes tool_dir !! "tool.py") as [a|];
      destruct (mtimes tool_dir !! "requirements.txt") as [b|];
      simplify_map_eq; naive_solver.
  - destruct (mtimes tool_dir !! "tool.py") as [a|];
      destruct (mtimes tool_dir !! "requirements.txt") as [b|];
      simplify_map_eq; naive_solver.
  - destruct (mtimes tool_dir !! "tool.py") as [a|];
      destruct (mtimes tool_dir !! "requirements.txt") as [b|];
      simplify_map_eq; naive_solver.
Qed.

Lemma forallb_map_to_list {A} (p : string * A -> bool) (m : gmap string A) :
  forallb p (map_to_list m) = true ↔ ∀ k x, m !! k = Some x → p (k, x) = true.
Proof.
  rewrite forallb_forall. split.
  - intros Hp k x Hk. apply Hp, list_elem_of_In, elem_of_map_to_list, Hk.
  - intros Hp [k x] Hin. apply Hp, elem_of_map_to_list, list_elem_of_In, Hin.
Qed.

(** C2. [is_tool_cache_valid] answers true exactly when the directory has a
    cache entry, the tracked files recorded in the entry are the tracked
    files now on disk ([tool.py] and [requirements.txt], each when it
    exists), and no tracked file's current modification time is later than
    the recorded one. *)
Theorem is_tool_cache_valid_iff (tools_cache : gmap string cache_entry) (D : Path) :
  (∀ f m, get_tool_file_info D !! f = Some m ↔
          (f = "tool.py" ∨ f = "requirements.txt") ∧ mtimes D !! f = Some m) ∧
  (is_tool_cache_valid tools_cache D = true ↔
   ∃ entry, tools_cache !! name D = Some entry
     ∧ dom (file_mtimes entry) = dom (get_tool_file_info D)
     ∧ ∀ f current_mtime, get_tool_file_info D !! f = Some current_mtime →
         ∃ recorded, file_mtimes entry !! f = Some recorded ∧ (current_mtime ≤ recorded)%Qc).
Proof.
  split; [intros f m; apply get_tool_file_info_lookup|].
  unfold is_tool_cache_valid.
  destruct (tools_cache !! name D) as [entry|] eqn:He; [|split; [done | intros (? & ? & _); done]].
  rewrite andb_true_iff, !forallb_map_to_list. split.
  - intros [Hcur Hcached]. exists entry. split; [done|]. split.
    + apply set_eq. intros f. rewrite !elem_of_dom. split.
      * intros [x Hx]. specialize (Hcached f x Hx). by apply bool_decide_eq_true in Hcached.
      * intros [x Hx]. specialize (Hcur f x Hx). simpl in Hcur.
        destruct (file_mtimes entry !! f); [eauto | done].
    + intros f cur Hf. specialize (Hcur f cur Hf). simpl in Hcur.
      destruct (file_mtimes entry !! f) as [rec|]; [|done].
      exists rec. split; [done|]. apply Qcnot_lt_le.
      apply negb_true_iff, bool_decide_eq_false in Hcur. done.
  - intros (entry' & [= <-] & Hdom & Hle). split.
    + intros f cur Hf. simpl. destruct (Hle f cur Hf) as (rec & -> & Hrec).
      apply negb_true_iff, bool_decide_eq_false. by apply Qcle_not_lt.
    + intros f x Hx. simpl. apply bool_decide_eq_true.
      apply elem_of_dom. rewrite <- Hdom. apply elem_of_dom. eauto.
Qed.

Lemma get_tool_directories_sublist (tools_dir : list Path) :
  get_tool_directories tools_dir `sublist_of` tools_dir.
Proof.
  unfold get_tool_directories.
  induction tools_dir as [|x l IH]; simpl; [constructor|].
  destruct (_ && _); [apply sublist_skip, IH | apply sublist_cons, IH].
Qed.

(** C4 (as the code has it). The scan returns, in listing order, exactly the
    entries of the plugin root that are directories and whose name does not
    start with an underscore; the interpreter-cache directory is among the
    excluded ones. The name pattern is not consulted. *)
Theorem get_tool_directories_spec (tools_dir : list Path) :
  (∀ item, item ∈ get_tool_directories tools_dir ↔
           item ∈ tools_dir ∧ is_dir item = true ∧ String.prefix "_" (name item) = false) ∧
  (∀ item, item ∈ get_tool_directories tools_dir → name item ≠ "__pycache__") ∧
  get_tool_directories tools_dir `sublist_of` tools_dir.
Proof.
  assert (Hmem : ∀ item, item ∈ get_tool_directories tools_dir ↔
            item ∈ tools_dir ∧ is_dir item = true ∧ String.prefix "_" (name item) = false).
  { intros item. unfold get_tool_directories.
    rewrite list_elem_of_In, filter_In, <- list_elem_of_In.
    rewrite !andb_true_iff, !negb_true_iff. split.
    - intros (? & [[? ?] ?]). done.
    - intros (? & ? & Hp). repeat split; try done.
      destruct (String.eqb_spec (name item) "__pycache__") as [Heq|]; [|done].
      rewrite Heq in Hp. done. }
  split; [done|]. split.
  - intros item [_ [_ Hp]]%Hmem Heq. rewrite Heq in Hp. done.
  - apply get_tool_directories_sublist.
Qed.

(** C4, the claim as stated fails: a directory whose name does not match
    the environment-name pattern is enumerated all the same. *)
Lemma get_tool_directories_keeps_unmatched_name :
  get_tool_directories [ {| name := "my-tool"; is_dir := true; mtimes := ∅ |} ]
    = [ {| name := "my-tool"; is_dir := true; mtimes := ∅ |} ]
  ∧ environment_name_matches "my-tool" = false.
Proof. split; reflexivity. Qed.

(** C10. [invalidate_tool_cache N] and, for a plugin name [N] (a non-empty
    string), [clear_cache N] delete the entry of [N] and nothing else; they
    report success exactly when [N] was cached, and report failure and leave
    the cache as it was when it was not. *)
Theorem cache_entry_removal (N : string) (tools_cache : gmap string cache_entry) :
  let r1 := invalidate_tool_cache N tools_cache in
  (r1.1 = true ↔ is_Some (tools_cache !! N)) ∧
  r1.2 = delete N tools_cache ∧
  r1.2 !! N = None ∧
  (∀ M, M ≠ N → r1.2 !! M = tools_cache !! M) ∧
  (tools_cache !! N = None → r1 = (false, tools_cache)) ∧
  (N ≠ "" →
   let r2 := clear_cache (Some N) tools_cache in
   (status r2.1 = "success" ↔ is_Some (tools_cache !! N)) ∧
   r2.2 = delete N tools_cache ∧
   r2.2 !! N = None ∧
   (∀ M, M ≠ N → r2.2 !! M = tools_cache !! M) ∧
   (tools_cache !! N = None → status r2.1 = "warning" ∧ r2.2 = tools_cache)).
Proof.
  unfold invalidate_tool_cache, clear_cache.
  destruct (tools_cache !! N) as [entry|] eqn:HN.
  - rewrite bool_decide_eq_true_2 by eauto. simpl.
    split; [by split; eauto|]. split; [done|]. split; [apply lookup_delete_eq|].
    split; [by intros M HM; apply lookup_delete_ne|]. split; [done|].
    intros Hne. destruct (String.eqb_spec N "") as [->|_]; [done|]. simpl.
    split; [by split; eauto|]. split; [done|]. split; [apply lookup_delete_eq|].
    split; [by intros M HM; apply lookup_delete_ne|]. done.
  - rewrite bool_decide_eq_false_2 by (by intros [? ?]). simpl.
    assert (Hdel : delete N tools_cache = tools_cache) by (by apply delete_id).
    split; [split; [done | by intros [? ?]]|]. split; [done|]. split; [done|].
    split; [done|]. split; [done|].
    intros Hne. destruct (String.eqb_spec N "") as [->|_]; [done|]. simpl.
    split; [split; [done | by intros [? ?]]|]. done.
Qed.

(** The cache of the sample holds [calc]; clearing it by name deletes that
    entry. *)
Lemma cache_entry_removal_witness :
  "calc" ≠ "" ∧
  (clear_cache (Some "calc") sample_cache).2 = delete "calc" sample_cache.
Proof.
  assert (Hne : "calc" ≠ "") by done.
  split; [exact Hne|].
  destruct (cache_entry_removal "calc" sample_cache) as (_ & _ & _ & _ & _ & Hclear).
  destruct (Hclear Hne) as (_ & Heq & _). exact Heq.
Defined.

End env_manager_facts.

(** ** Change tracker *)
Section change_tracker_facts.
Import ToolChangeManager.

Lemma _get_detailed_diff_lookup (old_desc new_desc : gmap string pyval) (k : string) :
  _get_detailed_diff old_desc new_desc !! k =
  if decide (dict_get old_desc k = dict_get new_desc k) then None
  else Some {| old := dict_get old_desc k; new := dict_get new_desc k |}.
Proof.
  unfold _get_detailed_diff.
  assert (Hfold : ∀ X : gset string,
    set_fold (fun key differences =>
       if bool_decide (dict_get old_desc key ≠ dict_get new_desc key)
       then <[key := {| old := dict_get old_desc key; new := dict_get new_desc key |}]> differences
       else differences) (∅ : gmap string value_change) X !! k =
    if decide (k ∈ X ∧ dict_get old_desc k ≠ dict_get new_desc k)
    then Some {| old := dict_get old_desc k; new := dict_get new_desc k |} else None).
  { apply (set_fold_ind_L (fun r X => r !! k =
      if decide (k ∈ X ∧ dict_get old_desc k ≠ dict_get new_desc k)
      then Some {| old := dict_get old_desc k; new := dict_get new_desc k |} else None)).
    - rewrite lookup_empty. rewrite decide_False; [done|]. set_solver.
    - intros x X r Hx IH. case_bool_decide as Hd.
      + destruct (decide (x = k)) as [-> | Hne].
        * rewrite lookup_insert_eq. rewrite decide_True; [done|]. set_solver.
        * rewrite lookup_insert_ne by done. rewrite IH.
          repeat case_decide; try done; set_solver.
      + rewrite IH. repeat case_decide; try done; [set_solver|].
        destruct (decide (x = k)) as [-> | Hne]; [naive_solver | set_solver]. }
  rewrite Hfold. clear Hfold.
  destruct (decide (dict_get old_desc k = dict_get new_desc k)) as [Heq | Hne].
  - rewrite decide_False; [done | naive_solver].
  - rewrite decide_True; [done|]. split; [|done].
    rewrite elem_of_union, !elem_of_dom. unfold dict_get in Hne.
    destruct (old_desc !! k), (new_desc !! k); eauto. done.
Qed.

Lemma elem_of_added previous_tools current_tools e :
  e ∈ added (detect_changes previous_tools current_tools) ↔
  current_tools !! name e = Some (details e) ∧ previous_tools !! name e = None.
Proof.
  unfold detect_changes; simpl. rewrite list_elem_of_omap. split.
  - intros ([n d] & Hin%elem_of_map_to_list & Hf). case_bool_decide; [|done].
    injection Hf as <-. done.
  - intros [Hc Hp]. exists (name e, details e). split; [by apply elem_of_map_to_list|].
    rewrite bool_decide_eq_true_2 by done. by destruct e.
Qed.

Lemma elem_of_removed previous_tools current_tools e :
  e ∈ removed (detect_changes previous_tools current_tools) ↔
  previous_tools !! name e = Some (details e) ∧ current_tools !! name e = None.
Proof.
  unfold detect_changes; simpl. rewrite list_elem_of_omap. split.
  - intros ([n d] & Hin%elem_of_map_to_list & Hf). case_bool_decide; [|done].
    injection Hf as <-. done.
  - intros [Hc Hp]. exists (name e, details e). split; [by apply elem_of_map_to_list|].
    rewrite bool_decide_eq_true_2 by done. by destruct e.
Qed.

Lemma elem_of_modified previous_tools current_tools e :
  e ∈ modified (detect_changes previous_tools current_tools) ↔
  previous_tools !! modified_name e = Some (previous e) ∧
  current_tools !! modified_name e = Some (current e) ∧
  current e ≠ previous e ∧
  differences e = _get_detailed_diff (previous e) (current e).
Proof.
  unfold detect_changes; simpl. rewrite list_elem_of_omap. split.
  - intros ([n d] & Hin%elem_of_map_to_list & Hf).
    destruct (previous_tools !! n) as [p|] eqn:Hp; [|done].
    case_bool_decide; [|done]. injection Hf as <-. done.
  - intros (Hp & Hc & Hne & Hd). exists (modified_name e, current e).
    split; [by apply elem_of_map_to_list|].
    rewrite Hp. rewrite bool_decide_eq_true_2 by done. destruct e; simpl in *. by subst.
Qed.


Lemma elem_of_added_names previous_tools current_tools n :
  n ∈ entry_names (added (detect_changes previous_tools current_tools)) ↔
  is_Some (current_tools !! n) ∧ previous_tools !! n = None.
Proof.
  unfold entry_names. rewrite elem_of_list_to_set, list_elem_of_fmap. split.
  - intros (e & -> & [Hc Hp]%elem_of_added). eauto.
  - intros [[d Hd] Hp]. exists {| name := n; details := d |}.
    split; [done|]. by apply elem_of_added.
Qed.

Lemma elem_of_removed_names previous_tools current_tools n :
  n ∈ entry_names (removed (detect_changes previous_tools current_tools)) ↔
  is_Some (previous_tools !! n) ∧ current_tools !! n = None.
Proof.
  unfold entry_names. rewrite elem_of_list_to_set, list_elem_of_fmap. split.
  - intros (e & -> & [Hc Hp]%elem_of_removed). eauto.
  - intros [[d Hd] Hp]. exists {| name := n; details := d |}.
    split; [done|]. by apply elem_of_removed.
Qed.

Lemma elem_of_modified_names previous_tools current_tools n :
  n ∈ modified_names (modified (detect_changes previous_tools current_tools)) ↔
  ∃ p d, previous_tools !! n = Some p ∧ current_tools !! n = Some d ∧ d ≠ p.
Proof.
  unfold modified_names. rewrite elem_of_list_to_set, list_elem_of_fmap. split.
  - intros (e & -> & (Hp & Hc & Hne & _)%elem_of_modified). eauto.
  - intros (p & d & Hp & Hd & Hne).
    exists {| modified_name := n; previous := p; current := d;
              differences := _get_detailed_diff p d |}.
    split; [done|]. by apply elem_of_modified.
Qed.



End change_tracker_facts.

(** ** Change history *)
Section change_history_facts.
Import ToolChangeManager.

Lemma update_tools_history existing_tools_desc new_tools_desc now s :
  change_history (update_tools existing_tools_desc new_tools_desc now s).2 =
  change_history s ++
    (if has_changes (detect_changes existing_tools_desc new_tools_desc)
     then [{| timestamp := now;
              recorded := detect_changes existing_tools_desc new_tools_desc |}]
     else []).
Proof.
  unfold update_tools; simpl. destruct (has_changes _); [done|]. by rewrite app_nil_r.
Qed.

Lemma has_changes_nonempty c : has_changes c = true → nonempty_diff c.
Proof.
  unfold has_changes, nonempty_diff. rewrite !orb_true_iff, !negb_true_iff.
  intros [[Ha | Hm] | Hr]; apply bool_decide_eq_false in Ha || apply bool_decide_eq_false in Hm
    || apply bool_decide_eq_false in Hr; auto.
Qed.

(** C3 (as the code has it). In every state the tracker reaches, every
    recorded entry is a non-empty diff, the entries stand in the order of
    the calls that recorded them (their timestamps are a subsequence of the
    clock readings of the calls), an update only ever appends to the log,
    and the summary exposes the last two entries at most. No bound on the
    log's length is part of this. *)
Theorem change_history_invariant (times : list string) (s : t) :
  reaches times s →
  Forall (fun r => nonempty_diff (recorded r)) (change_history s) ∧
  (timestamp <$> change_history s) `sublist_of` times ∧
  (∀ existing_tools_desc new_tools_desc now,
     change_history s `prefix_of`
       change_history (update_tools existing_tools_desc new_tools_desc now s).2) ∧
  recent_changes (get_change_summary s) `suffix_of` change_history s ∧
  length (recent_changes (get_change_summary s)) ≤ 2.
Proof.
  intros Hreach. split; [|split; [|split; [|split]]].
  - induction Hreach as [|times s e n now Hreach IH]; [constructor|].
    rewrite update_tools_history. apply Forall_app. split; [done|].
    destruct (has_changes _) eqn:Hc; [|constructor].
    constructor; [|constructor]. by apply has_changes_nonempty.
  - induction Hreach as [|times s e n now Hreach IH]; [constructor|].
    rewrite update_tools_history, fmap_app.
    apply sublist_app; [done|].
    destruct (has_changes _); simpl; [done | apply sublist_nil_l].
  - intros e n now. rewrite update_tools_history. by eexists.
  - unfold get_change_summary; simpl.
    destruct (change_history s) as [|r l] eqn:Hh; [done|].
    apply suffix_drop.
  - unfold get_change_summary; simpl.
    destruct (change_history s) as [|r l] eqn:Hh; [simpl; lia|].
    rewrite length_drop. lia.
Qed.

Lemma flip_has_changes (b : bool) :
  has_changes (detect_changes (flip b) (flip (negb b))) = true.
Proof. destruct b; vm_compute; reflexivity. Qed.

Lemma churn_history (n : nat) :
  reaches (replicate n "t") (churn n) ∧ length (change_history (churn n)) = n.
Proof.
  induction n as [|n [IHr IHl]]; [split; [constructor | done]|].
  split.
  - replace (replicate (S n) "t") with (replicate n "t" ++ ["t"]).
    + change (churn (S n))
        with (update_tools (flip (Nat.even n)) (flip (Nat.odd n)) "t" (churn n)).2.
      by constructor.
    + clear. induction n; simpl; [done | by f_equal].
  - change (churn (S n))
      with (update_tools (flip (Nat.even n)) (flip (Nat.odd n)) "t" (churn n)).2.
    rewrite update_tools_history, length_app, IHl.
    rewrite <- Nat.negb_even, flip_has_changes. simpl. lia.
Qed.

(** C3, the claim as stated fails: the log has no bound. Every update that
    detects a change appends an entry and nothing ever removes one; three
    updates that each modify the tool leave three entries. *)
Lemma change_history_unbounded :
  ¬ history_bounded ∧ length (change_history (churn 3)) = 3.
Proof.
  split; [|reflexivity].
  intros [bound Hbound].
  destruct (churn_history (S bound)) as [Hr Hl].
  specialize (Hbound _ _ Hr). lia.
Qed.

(** The invariant holds of the state after three modifying updates. *)
Lemma change_history_invariant_witness :
  reaches (replicate 3 "t") (churn 3) ∧
  Forall (fun r => nonempty_diff (recorded r)) (change_history (churn 3)).
Proof.
  split; [apply (churn_history 3)|].
  apply (change_history_invariant (replicate 3 "t") (churn 3)), (churn_history 3).
Defined.

End change_history_facts.

(** ** Execution worker *)
Section execution_worker_facts.
Import tool_execution_script.

Lemma occurs_in_middle (a needle b : string) : occurs_in needle (a +:+ needle +:+ b).
Proof. by exists a, b. Qed.

Lemma string_app_assoc (a b c : string) : (a +:+ b) +:+ c = a +:+ (b +:+ c).
Proof.
  induction a as [|x a IH]; [done|].
  change (String x ((a +:+ b) +:+ c) = String x (a +:+ (b +:+ c))). by rewrite IH.
Qed.

Lemma string_app_nil_r (a : string) : a +:+ "" = a.
Proof.
  induction a as [|x a IH]; [done|].
  change (String x (a +:+ "") = String x a). by rewrite IH.
Qed.

Lemma occurs_in_suffix (a needle : string) : occurs_in needle (a +:+ needle).
Proof. exists a, "". by rewrite string_app_nil_r. Qed.

Lemma occurs_in_app_r (a text needle : string) :
  occurs_in needle text → occurs_in needle (a +:+ text).
Proof.
  intros (x & y & ->). exists (a +:+ x), y. by rewrite string_app_assoc.
Qed.




End execution_worker_facts.

(** ** Tool proxy *)
Section tool_proxy_facts.
Import ToolProxy.

(** C8. When the worker ran to completion: if its standard output is not
    valid JSON the proxy returns that text as it is; if it parses to an
    object whose [success] is true the proxy returns the object's [result];
    if [success] is false the proxy raises an execution error whose text
    contains the worker's error text and traceback. *)
Theorem proxy_call_spec (w : world) (self : t) (args : list pyval)
    (kwargs : gmap string pyval) (stdout : string) :
  script_exists w = true →
  json_serializable (call_params self args kwargs) = true →
  subprocess_run w (python_executable self) (call_params self args kwargs) (tool_dir self)
    = Completed stdout →
  (json_loads w stdout = None → __call__ w self args kwargs = Return (PStr stdout)) ∧
  (∀ output, json_loads w stdout = Some (PDict output) →
     (∀ result, output !! "success" = Some (PBool true) → output !! "result" = Some result →
        __call__ w self args kwargs = Return result) ∧
     (output !! "success" = Some (PBool false) →
        ∃ text, __call__ w self args kwargs = Raise (RuntimeError text) ∧
          occurs_in (py_str (dict_get_default output "error" (PStr ""))) text ∧
          occurs_in (py_str (dict_get_default output "traceback" (PStr ""))) text)).
Proof.
  intros Hscript Hparams Hrun. unfold __call__.
  rewrite Hscript, Hparams, Hrun. simpl.
  split; [by intros ->|].
  intros output ->. split.
  - intros result Hs Hr. unfold dict_get. rewrite Hs, Hr. done.
  - intros Hs. unfold dict_get at 1. rewrite Hs. simpl. eexists. split; [reflexivity|].
    split.
    + apply occurs_in_middle.
    + apply occurs_in_app_r, occurs_in_app_r, occurs_in_suffix.
Qed.

(** In the sample world the child prints a success line carrying 5, and the
    proxy returns 5. *)
Lemma proxy_call_spec_witness :
  script_exists sample_proxy_world = true ∧
  json_serializable (call_params calc_add_proxy [PInt 2; PInt 3] ∅) = true ∧
  subprocess_run sample_proxy_world (python_executable calc_add_proxy)
    (call_params calc_add_proxy [PInt 2; PInt 3] ∅) (tool_dir calc_add_proxy)
    = Completed success_line ∧
  __call__ sample_proxy_world calc_add_proxy [PInt 2; PInt 3] ∅ = Return (PInt 5).
Proof.
  assert (Hparams : json_serializable (call_params calc_add_proxy [PInt 2; PInt 3] ∅) = true)
    by (vm_compute; reflexivity).
  split; [reflexivity|]. split; [exact Hparams|]. split; [reflexivity|].
  destruct (proxy_call_spec sample_proxy_world calc_add_proxy [PInt 2; PInt 3] ∅
              success_line eq_refl Hparams eq_refl) as [_ Hparsed].
  destruct (Hparsed {[ "success" := PBool true; "result" := PInt 5 ]}) as [Hok _].
  { vm_compute. reflexivity. }
  apply Hok; vm_compute; reflexivity.
Defined.

End tool_proxy_facts.

(** ** Dynamic loader: the two loops of reconciliation *)
Section loader_facts.
Import DynamicToolLoader.
Context `{FastMCP}.

Lemma validated_same_but_fn h1 h2 info :
  same_but_fn h1 h2 → validated h1 info = validated h2 info.
Proof.
  intros Hsame. unfold validated.
  rewrite <- (insert_delete_eq (h1 !!! tool_data info)),
          <- (insert_delete_eq (h2 !!! tool_data info)).
  by rewrite Hsame.
Qed.

Lemma register_loop_spec (heap0 : gmap positive (gmap string pyval))
    (reg0 : gmap string FunctionTool) (tools : gmap string tool_info) :
  let r := map_fold register_tool (heap0, reg0, ∅) tools in
  same_but_fn r.1.1 heap0 ∧
  (∀ n, r.2 !! n =
        registered_tool heap0 tools n ≫= fun t => Some (delete "fn" (model_dump t))) ∧
  (keys_agree heap0 tools →
   ∀ n, r.1.2 !! n =
        match registered_tool heap0 tools n with
        | Some t => Some t
        | None => reg0 !! n
        end).
Proof.
  apply (map_fold_weak_ind (fun r m =>
    same_but_fn r.1.1 heap0 ∧
    (∀ n, r.2 !! n =
          registered_tool heap0 m n ≫= fun t => Some (delete "fn" (model_dump t))) ∧
    (keys_agree heap0 m →
     ∀ n, r.1.2 !! n =
          match registered_tool heap0 m n with
          | Some t => Some t
          | None => reg0 !! n
          end))).
  - unfold registered_tool. split; [done|]. split; intros; by rewrite lookup_empty.
  - unfold registered_tool. intros i info m [[h reg] nd] Hi (Hsame & Hnd & Hreg). simpl in *.
    assert (Hval : model_validate (without_provenance
              (<["fn" := PMethod (ToolProxy.proxy_id (proxy info))]> (h !!! tool_data info)))
            = validated heap0 info).
    { by apply (validated_same_but_fn h heap0 info). }
    assert (Hsame' : same_but_fn
      (<[tool_data info := <["fn" := PMethod (ToolProxy.proxy_id (proxy info))]>
                              (h !!! tool_data info)]> h) heap0).
    { intros l. destruct (decide (l = tool_data info)) as [-> | Hne].
      - rewrite lookup_total_insert_eq, delete_insert_eq. apply Hsame.
      - rewrite lookup_total_insert_ne by done. apply Hsame. }
    unfold register_tool. rewrite Hval.
    destruct (validated heap0 info) as [t|] eqn:Ht; simpl.
    + split; [done|]. split.
      * intros n. destruct (decide (i = n)) as [-> | Hne].
        -- rewrite !lookup_insert_eq. simpl. by rewrite Ht.
        -- rewrite !lookup_insert_ne by done. apply Hnd.
      * intros Hkeys n.
        assert (Hk : key t = i) by (apply (Hkeys i info t); [apply lookup_insert_eq | done]).
        assert (Hkeys' : keys_agree heap0 m).
        { intros n' info' t' Hn' Ht'. apply (Hkeys n' info' t'); [|done].
          rewrite lookup_insert_ne; [done|]. intros ->. congruence. }
        unfold add_tool, remove_tool. rewrite Hk.
        destruct (decide (i = n)) as [-> | Hne].
        -- rewrite !lookup_insert_eq. simpl. by rewrite Ht.
        -- rewrite !lookup_insert_ne by done.
           case_bool_decide; [rewrite lookup_delete_ne by done|]; by apply Hreg.
    + split; [done|]. split.
      * intros n. destruct (decide (i = n)) as [-> | Hne].
        -- rewrite lookup_insert_eq. simpl. rewrite Ht. simpl.
           rewrite Hnd, Hi. done.
        -- rewrite lookup_insert_ne by done. apply Hnd.
      * intros Hkeys n.
        assert (Hkeys' : keys_agree heap0 m).
        { intros n' info' t' Hn' Ht'. apply (Hkeys n' info' t'); [|done].
          rewrite lookup_insert_ne; [done|]. intros ->. congruence. }
        destruct (decide (i = n)) as [-> | Hne].
        -- rewrite lookup_insert_eq. simpl. rewrite Ht.
           rewrite (Hreg Hkeys' n), Hi. done.
        -- rewrite lookup_insert_ne by done. by apply Hreg.
Qed.

Lemma remove_absent_fires tools request_tool_dir n reg :
  remove_absent tools request_tool_dir n reg =
  if removal_fires tools request_tool_dir n then delete n reg else reg.
Proof.
  unfold remove_absent, removal_fires, remove_tool.
  destruct (bool_decide _ && str_contains "-" n); simpl; [|done].
  destruct request_tool_dir as [dir|]; [|done]. by destruct (String.prefix _ _).
Qed.

Lemma removal_loop_spec {A} (tools : gmap string tool_info) (request_tool_dir : option string)
    (reg : gmap string FunctionTool) (existing_tools_desc : gmap string A) (n : string) :
  map_fold (fun tool_name _ => remove_absent tools request_tool_dir tool_name)
    reg existing_tools_desc !! n =
  match existing_tools_desc !! n with
  | Some _ => if removal_fires tools request_tool_dir n then None else reg !! n
  | None => reg !! n
  end.
Proof.
  apply (map_fold_weak_ind (fun r m =>
    r !! n = match m !! n with
             | Some _ => if removal_fires tools request_tool_dir n then None else reg !! n
             | None => reg !! n
             end)).
  - by rewrite lookup_empty.
  - intros i x m r Hi IH. rewrite remove_absent_fires.
    destruct (decide (i = n)) as [-> | Hne].
    + rewrite lookup_insert_eq. rewrite Hi in IH.
      destruct (removal_fires _ _ _); [apply lookup_delete_eq | done].
    + rewrite lookup_insert_ne by done.
      destruct (removal_fires tools request_tool_dir i);
        [rewrite lookup_delete_ne by done|]; apply IH.
Qed.

End loader_facts.

(** ** Dynamic loader: reconciliation as a whole *)
Section reconcile_facts.
Import DynamicToolLoader.
Context `{FastMCP}.

Lemma existing_descriptions_lookup (reg : gmap string FunctionTool) (n : string) :
  existing_descriptions reg !! n =
  if str_contains "-" n then (fun v => delete "fn" (model_dump v)) <$> reg !! n else None.
Proof.
  unfold existing_descriptions. rewrite lookup_fmap, map_lookup_filter.
  destruct (reg !! n) as [t|]; simpl; [|by destruct (str_contains "-" n)].
  case_guard as Hg; simpl in *; destruct (str_contains "-" n); done.
Qed.

(** What one reconciliation leaves behind, loop by loop. *)
Lemma register_tools_to_mcp_spec (tools_dir_name now : string)
    (tools : gmap string tool_info) (request_tool_name : option string) (s : server) :
  let r := register_tools_to_mcp tools_dir_name now tools request_tool_name s in
  same_but_fn (heap r.2) (heap s) ∧
  tools_cache r.2 = tools_cache s ∧
  ToolChangeManager.previous_tools (change_manager r.2) = existing_descriptions (registry s) ∧
  (∀ n, ToolChangeManager.current_tools (change_manager r.2) !! n =
        registered_tool (heap s) tools n ≫= fun t => Some (delete "fn" (model_dump t))) ∧
  r.1 = ToolChangeManager.detect_changes (existing_descriptions (registry s))
          (ToolChangeManager.current_tools (change_manager r.2)) ∧
  (keys_agree (heap s) tools →
   ∀ n, registry r.2 !! n =
        match existing_descriptions (registry s) !! n with
        | Some _ =>
            if removal_fires tools (request_tool_dir tools_dir_name request_tool_name) n
            then None
            else match registered_tool (heap s) tools n with
                 | Some t => Some t
                 | None => registry s !! n
                 end
        | None =>
            match registered_tool (heap s) tools n with
            | Some t => Some t
            | None => registry s !! n
            end
        end).
Proof.
  intros r. subst r. unfold register_tools_to_mcp.
  pose proof (register_loop_spec (heap s) (registry s) tools) as Hloop.
  destruct (map_fold register_tool (heap s, registry s, ∅) tools) as [[h reg] nd] eqn:Hfold.
  simpl in Hloop. destruct Hloop as (Hsame & Hnd & Hreg). simpl.
  repeat split; try done.
  intros Hkeys n. rewrite removal_loop_spec.
  rewrite (Hreg Hkeys n). done.
Qed.

(** C6 (as the code has it). When the loaded names are qualified and the
    registry files each validated tool under its loaded name, two
    consecutive reconciliations with the same loaded set leave the same
    registry, and the second one detects nothing added and nothing
    modified. What it reports as removed are exactly the qualified names
    still registered after the first run that the run did not register from
    the loaded set; the second diff is empty when there is no such name. *)
Theorem reconcile_twice (tools_dir_name now1 now2 : string)
    (tools : gmap string tool_info) (request_tool_name : option string) (s : server) :
  keys_agree (heap s) tools →
  (∀ n, is_Some (tools !! n) → str_contains "-" n = true) →
  let r1 := register_tools_to_mcp tools_dir_name now1 tools request_tool_name s in
  let r2 := register_tools_to_mcp tools_dir_name now2 tools request_tool_name r1.2 in
  registry r2.2 = registry r1.2 ∧
  ToolChangeManager.added r2.1 = [] ∧
  ToolChangeManager.modified r2.1 = [] ∧
  (∀ n, n ∈ ToolChangeManager.entry_names (ToolChangeManager.removed r2.1) ↔
        is_Some (registry r1.2 !! n) ∧ str_contains "-" n = true ∧
        ToolChangeManager.current_tools (change_manager r1.2) !! n = None) ∧
  ((∀ n, is_Some (registry r1.2 !! n) → str_contains "-" n = true →
         is_Some (ToolChangeManager.current_tools (change_manager r1.2) !! n)) →
   r2.1 = {| ToolChangeManager.added := []; ToolChangeManager.removed := [];
             ToolChangeManager.modified := [] |}).
Proof.
  intros Hkeys Hqual r1 r2.
  destruct (register_tools_to_mcp_spec tools_dir_name now1 tools request_tool_name s)
    as (Hsame1 & _ & _ & Hcur1 & _ & Hreg1).
  fold r1 in Hsame1, Hcur1, Hreg1. specialize (Hreg1 Hkeys).
  assert (Hval : ∀ info, validated (heap r1.2) info = validated (heap s) info).
  { intros info. by apply validated_same_but_fn. }
  assert (Hkeys2 : keys_agree (heap r1.2) tools).
  { intros n info t Hn Ht. rewrite Hval in Ht. by apply (Hkeys n info t). }
  destruct (register_tools_to_mcp_spec tools_dir_name now2 tools request_tool_name r1.2)
    as (_ & _ & _ & Hcur2 & Hdiff2 & Hreg2).
  fold r2 in Hcur2, Hdiff2, Hreg2. specialize (Hreg2 Hkeys2).
  set (dir := request_tool_dir tools_dir_name request_tool_name) in *.
  assert (Hcur : ToolChangeManager.current_tools (change_manager r2.2)
                 = ToolChangeManager.current_tools (change_manager r1.2)).
  { apply map_eq. intros n. rewrite Hcur1, Hcur2. unfold registered_tool.
    destruct (tools !! n) as [info|]; simpl; [by rewrite Hval | done]. }
  rewrite Hcur in Hdiff2.
  (* the registry after the first run, name by name *)
  assert (Hfire : ∀ n, removal_fires tools dir n = true →
            tools !! n = None ∧ str_contains "-" n = true).
  { intros n. unfold removal_fires. rewrite !andb_true_iff.
    intros [[Hn%bool_decide_eq_true Hc] _]. done. }
  assert (HR1 : ∀ n, registry r1.2 !! n =
            if removal_fires tools dir n then None
            else match registered_tool (heap s) tools n with
                 | Some t => Some t
                 | None => registry s !! n
                 end).
  { intros n. rewrite Hreg1, existing_descriptions_lookup.
    destruct (removal_fires tools dir n) eqn:Hf.
    - destruct (Hfire n Hf) as [Hn Hc]. unfold registered_tool. rewrite Hc, Hn. simpl.
      by destruct (registry s !! n).
    - by destruct (if str_contains "-" n then _ else _). }
  assert (HR2 : registry r2.2 = registry r1.2).
  { apply map_eq. intros n. rewrite Hreg2, existing_descriptions_lookup.
    assert (Hrt : registered_tool (heap r1.2) tools n = registered_tool (heap s) tools n).
    { unfold registered_tool. destruct (tools !! n); simpl; [apply Hval | done]. }
    rewrite Hrt, (HR1 n).
    destruct (removal_fires tools dir n) eqn:Hf.
    - destruct (Hfire n Hf) as [Hn Hc]. unfold registered_tool. by rewrite Hc, Hn.
    - destruct (registered_tool (heap s) tools n) as [t|]; simpl.
      + by destruct (str_contains "-" n).
      + by destruct (if str_contains "-" n then _ else _). }
  (* what the second run compares *)
  assert (Hnew : ∀ n d, ToolChangeManager.current_tools (change_manager r1.2) !! n = Some d →
            existing_descriptions (registry r1.2) !! n = Some d).
  { intros n d. rewrite Hcur1, existing_descriptions_lookup, (HR1 n).
    unfold registered_tool.
    destruct (tools !! n) as [info|] eqn:Hn; simpl; [|done].
    destruct (validated (heap s) info) as [t|] eqn:Ht; simpl; [|done].
    intros [= <-]. rewrite (Hqual n) by eauto.
    unfold removal_fires. rewrite bool_decide_eq_false_2 by congruence. done. }
  assert (Hadded : ToolChangeManager.added r2.1 = []).
  { apply elem_of_nil_inv. intros e. rewrite Hdiff2, elem_of_added.
    intros [Hc He]. apply Hnew in Hc. congruence. }
  assert (Hmodified : ToolChangeManager.modified r2.1 = []).
  { apply elem_of_nil_inv. intros e. rewrite Hdiff2, elem_of_modified.
    intros (Hp & Hc & Hne & _). apply Hnew in Hc. congruence. }
  assert (Hremoved : ∀ n,
    n ∈ ToolChangeManager.entry_names (ToolChangeManager.removed r2.1) ↔
    is_Some (registry r1.2 !! n) ∧ str_contains "-" n = true ∧
    ToolChangeManager.current_tools (change_manager r1.2) !! n = None).
  { intros n. rewrite Hdiff2, elem_of_removed_names, existing_descriptions_lookup.
    destruct (str_contains "-" n); [|split; [by intros [[? ?] _] | by intros (_ & ? & _)]].
    rewrite fmap_is_Some. naive_solver. }
  split; [done|]. split; [done|]. split; [done|]. split; [apply Hremoved|].
  intros Hall. destruct r2.1 as [a r m] eqn:Hr2. simpl in *. subst a m. f_equal.
  apply elem_of_nil_inv. intros e He.
  assert (Hin : ToolChangeManager.name e ∈ ToolChangeManager.entry_names r).
  { unfold ToolChangeManager.entry_names. rewrite elem_of_list_to_set, list_elem_of_fmap.
    eauto. }
  apply Hremoved in Hin as (Hreg & Hc & Hnone).
  destruct (Hall _ Hreg Hc) as [? ?]. congruence.
Qed.

End reconcile_facts.

(** ** Reconciliation on the sample data *)
Section reconcile_examples.
Import DynamicToolLoader.

(** C1, the code at a failing input. The plugin [calc] lost its function
    [add] and only [calc-mul] is loaded. A full reconciliation and one
    targeted at [calc] both report [calc-add] as removed, and both leave it
    in the registry: the removal loop only unregisters names that start
    with the directory name followed by a dot. *)
Lemma stale_tool_survives_reconcile :
  let full := @register_tools_to_mcp plain_registry "tools" "t" loaded_mul None
                server_after_edit in
  let targeted := @register_tools_to_mcp plain_registry "tools" "t" loaded_mul
                    (Some "calc-mul") server_after_edit in
  ToolChangeManager.name <$> ToolChangeManager.removed full.1 = ["calc-add"] ∧
  registry full.2 !! "calc-add" = Some (plain_tool_of "calc-add" "Add two numbers" 3) ∧
  ToolChangeManager.name <$> ToolChangeManager.removed targeted.1 = ["calc-add"] ∧
  registry targeted.2 !! "calc-add" = Some (plain_tool_of "calc-add" "Add two numbers" 3).
Proof. vm_compute. repeat split; reflexivity. Qed.

(** C6, the claim as stated fails: a refresh targeted at [calc] keeps the
    tool of the plugin [notes] in the registry and reports it as removed,
    the second time as well as the first. *)
Lemma second_reconcile_reports_removed :
  let r1 := @register_tools_to_mcp plain_registry "tools" "t1" loaded_add
              (Some "calc-add") server_with_notes in
  let r2 := @register_tools_to_mcp plain_registry "tools" "t2" loaded_add
              (Some "calc-add") r1.2 in
  registry r2.2 = registry r1.2 ∧
  ToolChangeManager.name <$> ToolChangeManager.removed r2.1 = ["notes-list"] ∧
  is_Some (registry r2.2 !! "notes-list").
Proof. vm_compute. repeat split; try reflexivity. by eexists. Qed.

Lemma sample_keys_agree : @keys_agree plain_registry (heap server_with_notes) loaded_add.
Proof.
  intros n info t Hn Ht. unfold loaded_add in Hn.
  apply lookup_singleton_Some in Hn as [<- <-].
  vm_compute in Ht. injection Ht as <-. reflexivity.
Qed.

Lemma sample_names_qualified (n : string) :
  is_Some (loaded_add !! n) → str_contains "-" n = true.
Proof.
  intros [info Hn]. unfold loaded_add in Hn.
  apply lookup_singleton_Some in Hn as [<- _]. reflexivity.
Qed.

(** The sample refresh has qualified names filed under themselves; its
    second run adds nothing. *)
Lemma reconcile_twice_witness :
  @keys_agree plain_registry (heap server_with_notes) loaded_add ∧
  (∀ n, is_Some (loaded_add !! n) → str_contains "-" n = true) ∧
  ToolChangeManager.added
    (@register_tools_to_mcp plain_registry "tools" "t2" loaded_add (Some "calc-add")
       (@register_tools_to_mcp plain_registry "tools" "t1" loaded_add (Some "calc-add")
          server_with_notes).2).1 = [].
Proof.
  split; [exact sample_keys_agree|]. split; [exact sample_names_qualified|].
  destruct (@reconcile_twice plain_registry "tools" "t1" "t2" loaded_add (Some "calc-add")
              server_with_notes sample_keys_agree sample_names_qualified)
    as (_ & Hadded & _).
  exact Hadded.
Defined.

End reconcile_examples.

(** ** Descriptor objects shared between the cache and the loader *)
Section shared_descriptor_facts.
Import ToolEnvironmentManager.

Lemma tool_name_of_allocated (heap : gmap positive (gmap string pyval)) l n :
  tool_name_of (heap !!! l) = Some n → is_Some (heap !! l).
Proof.
  rewrite lookup_total_alt. destruct (heap !! l); [eauto|]. simpl. done.
Qed.

Lemma alloc_all_cons (heap : gmap positive (gmap string pyval)) d ds :
  alloc_all heap (d :: ds) =
  (fresh (dom heap) :: (alloc_all (<[fresh (dom heap) := d]> heap) ds).1,
   (alloc_all (<[fresh (dom heap) := d]> heap) ds).2).
Proof. simpl. by destruct (alloc_all _ ds). Qed.

(** Allocation leaves the objects already in the store as they are. *)
Lemma alloc_all_old (ds : list (gmap string pyval)) :
  ∀ (heap : gmap positive (gmap string pyval)) l,
    is_Some (heap !! l) → (alloc_all heap ds).2 !! l = heap !! l.
Proof.
  induction ds as [|d ds IH]; intros heap l Hl; [done|].
  rewrite alloc_all_cons. simpl.
  assert (Hne : fresh (dom heap) ≠ l).
  { intros Heq. apply (is_fresh (dom heap)). rewrite Heq. by apply elem_of_dom. }
  rewrite IH; rewrite lookup_insert_ne by done; done.
Qed.

Lemma add_tools_spec (heap : gmap positive (gmap string pyval)) (metadata : list positive) :
  ∀ acc acc', add_tools heap metadata acc = Some acc' →
    ∀ n l, acc' !! n = Some l →
      acc !! n = Some l ∨ (l ∈ metadata ∧ tool_name_of (heap !!! l) = Some n).
Proof.
  induction metadata as [|m metadata IH]; intros acc acc' Hadd n l Hn; simpl in Hadd.
  - injection Hadd as <-. by left.
  - destruct (tool_name_of (heap !!! m)) as [nm|] eqn:Hm; [|done].
    destruct (IH _ _ Hadd n l Hn) as [Hacc | [Hin Hname]].
    + destruct (decide (nm = n)) as [-> | Hne].
      * rewrite lookup_insert_eq in Hacc. injection Hacc as <-.
        right. split; [left | done].
      * rewrite lookup_insert_ne in Hacc by done. by left.
    + right. split; [by right | done].
Qed.

Lemma load_directory_old_objects (w : world) request_tool_dir tool_dir st st' :
  load_directory w request_tool_dir tool_dir st = Some st' →
  ∀ l, is_Some (heap st !! l) → heap st' !! l = heap st !! l.
Proof.
  unfold load_directory. intros Hload l Hl.
  case_bool_decide; [by injection Hload as <-|].
  destruct (is_tool_cache_valid (tools_cache st) tool_dir).
  - destruct (tools_cache st !! name tool_dir) as [cached|]; [|done].
    destruct (add_tools _ _ _); simpl in Hload; [|done]. by injection Hload as <-.
  - destruct (res_error _) as [e|]; [by injection Hload as <-|].
    destruct (res_tools _) as [ds|]; [|by injection Hload as <-].
    pose proof (alloc_all_old ds (heap st) l Hl) as Hold.
    destruct (alloc_all (heap st) ds) as [metadata heap'].
    destruct (add_tools _ _ _); simpl in Hload; [|done]. by injection Hload as <-.
Qed.

Lemma load_directory_returned (w : world) request_tool_dir tool_dir visited st st' :
  name tool_dir ∉ visited →
  returned_from_cache visited st →
  load_directory w request_tool_dir tool_dir st = Some st' →
  returned_from_cache (name tool_dir :: visited) st'.
Proof.
  intros Hfresh Hinv Hload.
  assert (Hweak : returned_from_cache (name tool_dir :: visited) st).
  { intros n l Hn. destruct (Hinv n l Hn) as (Hname & D & e & HD & He & Hl).
    split; [done|]. exists D, e. split; [by right | done]. }
  unfold load_directory in Hload.
  case_bool_decide; [by injection Hload as <-|].
  destruct (is_tool_cache_valid (tools_cache st) tool_dir).
  - destruct (tools_cache st !! name tool_dir) as [cached|] eqn:Hc; [|done].
    destruct (add_tools _ _ _) as [acc'|] eqn:Hadd; simpl in Hload; [|done].
    injection Hload as <-. intros n l Hn. simpl in *.
    destruct (add_tools_spec _ _ _ _ Hadd n l Hn) as [Hold | [Hin Hname]].
    + apply (Hweak n l Hold).
    + split; [done|]. exists (name tool_dir), cached. split; [by left | done].
  - destruct (res_error _) as [e|]; [by injection Hload as <-|].
    destruct (res_tools _) as [ds|]; [|by injection Hload as <-].
    pose proof (alloc_all_old ds (heap st)) as Hold.
    destruct (alloc_all (heap st) ds) as [metadata heap'] eqn:Halloc. simpl in Hold.
    destruct (add_tools _ _ _) as [acc'|] eqn:Hadd; simpl in Hload; [|done].
    injection Hload as <-. intros n l Hn. simpl in *.
    destruct (add_tools_spec _ _ _ _ Hadd n l Hn) as [Hacc | [Hin Hname]].
    + destruct (Hinv n l Hacc) as (Hname & D & e & HD & He & Hl).
      split.
      * rewrite lookup_total_alt, Hold by (by eapply tool_name_of_allocated).
        by rewrite <- lookup_total_alt.
      * exists D, e. split; [by right|]. split; [|done].
        unfold update_tool_cache. rewrite lookup_insert_ne; [done|].
        intros Heq. apply Hfresh. by rewrite Heq.
    + split; [done|]. eexists (name tool_dir), _. split; [by left|]. split.
      * unfold update_tool_cache. apply lookup_insert_eq.
      * done.
Qed.

Lemma load_directories_returned (w : world) request_tool_dir (dirs : list Path) :
  ∀ visited st st',
    NoDup (name <$> dirs) →
    (∀ D, D ∈ dirs → name D ∉ visited) →
    returned_from_cache visited st →
    load_directories w request_tool_dir dirs st = Some st' →
    (∃ visited', returned_from_cache visited' st') ∧
    (∀ l, is_Some (heap st !! l) → heap st' !! l = heap st !! l).
Proof.
  induction dirs as [|D dirs IH]; intros visited st st' Hnd Hvis Hinv Hload; simpl in Hload.
  - injection Hload as <-. split; [by exists visited | done].
  - destruct (load_directory w request_tool_dir D st) as [st1|] eqn:H1; [|done].
    rewrite fmap_cons in Hnd. apply NoDup_cons in Hnd as [HD Hnd].
    destruct (IH (name D :: visited) st1 st' Hnd) as [Hret Hold]; [| |done|].
    + intros D' HD' [Heq | Hin]%elem_of_cons.
      * apply HD. rewrite <- Heq. apply list_elem_of_fmap. eauto.
      * apply (Hvis D'); [by right | done].
    + apply (load_directory_returned w request_tool_dir D visited st st1); [|done..].
      apply Hvis. by left.
    + split; [done|]. intros l Hl.
      rewrite Hold; [by apply (load_directory_old_objects w request_tool_dir D st st1)|].
      rewrite (load_directory_old_objects w request_tool_dir D st st1) by done. done.
Qed.

(** Every descriptor object [load_all_tools] returns is held by the cache. *)
Lemma load_all_tools_returned (w : world) request_tool_dir heap0 cache0 st :
  NoDup (name <$> listing w) →
  load_all_tools w request_tool_dir heap0 cache0 = Some st →
  ∀ n l, all_tools st !! n = Some l →
    tool_name_of (heap st !!! l) = Some n ∧
    ∃ D entry, tools_cache st !! D = Some entry ∧ l ∈ tools entry.
Proof.
  intros Hnd Hload n l Hn. unfold load_all_tools in Hload.
  apply (load_directories_returned w request_tool_dir _ []) in Hload as [[visited Hret] _].
  - destruct (Hret n l Hn) as (Hname & D & e & _ & He & Hl).
    split; [done|]. by exists D, e.
  - apply (sublist_NoDup _ (name <$> listing w)); [done|].
    apply fmap_sublist. apply get_tool_directories_sublist.
  - intros D _ Hin. by apply elem_of_nil in Hin.
  - intros n' l' Hn'. simpl in Hn'. by rewrite lookup_empty in Hn'.
Qed.


End shared_descriptor_facts.

(** ** Registration writes into the cached descriptor objects *)
Section registration_facts.
Import DynamicToolLoader.
Context `{FastMCP}.

(** The loaded set refers to the descriptor objects [load_all_tools]
    returned, each under its name, and each proxy is bound to the same
    object. *)
Lemma scan_tools_spec (w : world) (heap : gmap positive (gmap string pyval))
    (proxies0 : gmap string ToolProxy.t) (next0 : N) (all_tools : gmap string positive) :
  ∀ n info,
    (map_fold (scan_tool w heap) (∅, proxies0, next0) all_tools).1.1 !! n = Some info →
    all_tools !! n = Some (tool_data info) ∧
    ToolProxy.tool_data (proxy info) = tool_data info.
Proof.
  apply (map_fold_weak_ind (fun r m =>
    ∀ n info, r.1.1 !! n = Some info →
      m !! n = Some (tool_data info) ∧ ToolProxy.tool_data (proxy info) = tool_data info)).
  - intros n info Hn. simpl in Hn. by rewrite lookup_empty in Hn.
  - intros i l m [[new_tools proxies] next] Hi IH n info Hn.
    assert (Hold : new_tools !! n = Some info →
              <[i := l]> m !! n = Some (tool_data info) ∧
              ToolProxy.tool_data (proxy info) = tool_data info).
    { intros Hn'. destruct (IH n info Hn') as [Hm Hp]. split; [|done].
      rewrite lookup_insert_ne; [done|]. intros ->. simpl in Hm. congruence. }
    unfold scan_tool in Hn.
    destruct (path_exists w _); [|by apply Hold].
    destruct (get_python_executable w _) as [exe|]; [|by apply Hold].
    destruct (create_proxy _ _ _ _ _) as [p|] eqn:Hp; [|by apply Hold].
    simpl in Hn. destruct (decide (i = n)) as [-> | Hne].
    + rewrite lookup_insert_eq in Hn. injection Hn as <-. simpl.
      rewrite lookup_insert_eq. split; [done|].
      unfold create_proxy in Hp. destruct (tool_name_of _); [|done].
      by injection Hp as <-.
    + rewrite lookup_insert_ne in Hn by done. by apply Hold.
Qed.


Lemma register_tools_to_mcp_heap (tools_dir_name now : string)
    (tools : gmap string tool_info) (request_tool_name : option string) (s : server) :
  heap (register_tools_to_mcp tools_dir_name now tools request_tool_name s).2 =
    (map_fold register_tool (heap s, registry s, ∅) tools).1.1 ∧
  tools_cache (register_tools_to_mcp tools_dir_name now tools request_tool_name s).2 =
    tools_cache s.
Proof.
  unfold register_tools_to_mcp.
  by destruct (map_fold register_tool (heap s, registry s, ∅) tools) as [[h reg] nd].
Qed.


End registration_facts.

Section registration_example.
Import DynamicToolLoader.

Lemma some_pair_eta {A B} (o : option (A * B)) (a : A) (b : B) :
  is_Some o → o = Some (from_option fst a o, from_option snd b o).
Proof. intros [[x y] ->]. reflexivity. Qed.


End registration_example.

(** * Further properties *)

(** ** Metadata cache: validity across updates and removals *)
Section cache_lifecycle_facts.
Import ToolEnvironmentManager.

(** Validity against a given entry, file by file. *)
Lemma is_tool_cache_valid_entry (tools_cache : gmap string cache_entry) (D : Path)
    (entry : cache_entry) :
  tools_cache !! name D = Some entry →
  (is_tool_cache_valid tools_cache D = true ↔
   dom (file_mtimes entry) = dom (get_tool_file_info D) ∧
   ∀ f current_mtime, get_tool_file_info D !! f = Some current_mtime →
     ∃ recorded, file_mtimes entry !! f = Some recorded ∧ (current_mtime ≤ recorded)%Qc).
Proof.
  intros He. unfold is_tool_cache_valid. rewrite He.
  rewrite andb_true_iff, !forallb_map_to_list. split.
  - intros [Hcur Hcached]. split.
    + apply set_eq. intros f. rewrite !elem_of_dom. split.
      * intros [x Hx]. specialize (Hcached f x Hx). by apply bool_decide_eq_true in Hcached.
      * intros [x Hx]. specialize (Hcur f x Hx). simpl in Hcur.
        destruct (file_mtimes entry !! f); [eauto | done].
    + intros f cur Hf. specialize (Hcur f cur Hf). simpl in Hcur.
      destruct (file_mtimes entry !! f) as [rec|]; [|done].
      exists rec. split; [done|]. apply Qcnot_lt_le.
      apply negb_true_iff, bool_decide_eq_false in Hcur. done.
  - intros [Hdom Hle]. split.
    + intros f cur Hf. simpl. destruct (Hle f cur Hf) as (rec & -> & Hrec).
      apply negb_true_iff, bool_decide_eq_false. by apply Qcle_not_lt.
    + intros f x Hx. simpl. apply bool_decide_eq_true.
      apply elem_of_dom. rewrite <- Hdom. apply elem_of_dom. eauto.
Qed.

Lemma is_tool_cache_valid_uncached (tools_cache : gmap string cache_entry) (D : Path) :
  tools_cache !! name D = None → is_tool_cache_valid tools_cache D = false.
Proof. intros He. unfold is_tool_cache_valid. by rewrite He. Qed.

Lemma update_tool_cache_valid_here (D : Path) (tools_data : list positive) (now : Qc)
    (tools_cache : gmap string cache_entry) :
  is_tool_cache_valid (update_tool_cache D tools_data now tools_cache) D = true.
Proof.
  assert (Hentry : update_tool_cache D tools_data now tools_cache !! name D =
    Some {| tools := tools_data; file_mtimes := get_tool_file_info D; last_loaded := now |}).
  { unfold update_tool_cache. apply lookup_insert_eq. }
  apply (is_tool_cache_valid_entry _ D _ Hentry). simpl. split; [done|].
  intros f m Hf. exists m. split; [done|]. apply Qcle_refl.
Qed.

(** X1. Right after [update_tool_cache] the directory is a cache hit, and
    it stays one for any later state of the directory in which the same
    tracked files exist and none of them carries a later modification time
    than at the update; a tracked file that is newer, new or gone makes it
    a miss. A file restored to an older modification time keeps the hit. *)
Theorem update_tool_cache_valid (D D' : Path) (tools_data : list positive) (now : Qc)
    (tools_cache : gmap string cache_entry) :
  name D' = name D →
  is_tool_cache_valid (update_tool_cache D tools_data now tools_cache) D = true ∧
  (is_tool_cache_valid (update_tool_cache D tools_data now tools_cache) D' = true ↔
   dom (get_tool_file_info D') = dom (get_tool_file_info D) ∧
   ∀ f current_mtime, get_tool_file_info D' !! f = Some current_mtime →
     ∃ recorded, get_tool_file_info D !! f = Some recorded ∧ (current_mtime ≤ recorded)%Qc).
Proof.
  intros Hname.
  assert (Hentry : ∀ P, name P = name D →
    update_tool_cache D tools_data now tools_cache !! name P =
    Some {| tools := tools_data; file_mtimes := get_tool_file_info D; last_loaded := now |}).
  { intros P HP. unfold update_tool_cache. rewrite HP. apply lookup_insert_eq. }
  split.
  - apply update_tool_cache_valid_here.
  - rewrite (is_tool_cache_valid_entry _ D' _ (Hentry D' Hname)). simpl.
    split; intros [Hdom Hle]; (split; [by rewrite Hdom | done]).
Qed.

(** The sample directory is a hit right after its cache entry is written. *)
Lemma update_tool_cache_valid_witness :
  name calc_dir = name calc_dir ∧
  is_tool_cache_valid (update_tool_cache calc_dir [1%positive] (mtime 101) ∅) calc_dir = true.
Proof.
  split; [reflexivity|].
  destruct (update_tool_cache_valid calc_dir calc_dir [1%positive] (mtime 101) ∅ eq_refl)
    as [Hvalid _].
  exact Hvalid.
Defined.

(** X2. Removing a plugin's entry, by [invalidate_tool_cache] or by
    [clear_cache] with its (non-empty) name, turns every directory of that
    name into a cache miss and changes the answer for no directory of
    another name. *)
Theorem removal_forces_miss (N : string) (tools_cache : gmap string cache_entry) (D : Path) :
  (name D = N →
   is_tool_cache_valid (invalidate_tool_cache N tools_cache).2 D = false) ∧
  (name D ≠ N →
   is_tool_cache_valid (invalidate_tool_cache N tools_cache).2 D
     = is_tool_cache_valid tools_cache D) ∧
  (N ≠ "" →
   (clear_cache (Some N) tools_cache).2 = (invalidate_tool_cache N tools_cache).2).
Proof.
  assert (Hinv : (invalidate_tool_cache N tools_cache).2 = delete N tools_cache).
  { unfold invalidate_tool_cache. case_bool_decide as Hc; simpl; [done|].
    symmetry. apply delete_id. by apply eq_None_not_Some. }
  rewrite Hinv. split; [|split].
  - intros <-. apply is_tool_cache_valid_uncached, lookup_delete_eq.
  - intros Hne. unfold is_tool_cache_valid. by rewrite lookup_delete_ne.
  - intros Hne. unfold clear_cache.
    destruct (String.eqb_spec N "") as [->|_]; [done|]. simpl.
    case_bool_decide as Hc; simpl; [done|].
    symmetry. apply delete_id. by apply eq_None_not_Some.
Qed.

(** X3. [clear_cache] called without a name, or with the empty string,
    empties the whole cache, reports success with the number of entries it
    dropped, and leaves every directory a cache miss. *)
Theorem clear_cache_all (tools_cache : gmap string cache_entry) :
  (clear_cache None tools_cache).2 = ∅ ∧
  clear_cache (Some "") tools_cache = clear_cache None tools_cache ∧
  status (clear_cache None tools_cache).1 = "success" ∧
  message (clear_cache None tools_cache).1 =
    "Cleared cache for " +:+ pretty (size tools_cache) +:+ " tools" ∧
  ∀ D, is_tool_cache_valid (clear_cache None tools_cache).2 D = false.
Proof.
  unfold clear_cache. simpl.
  split; [done|]. split; [done|]. split; [done|]. split; [done|].
  intros D. apply is_tool_cache_valid_uncached, lookup_empty.
Qed.

End cache_lifecycle_facts.

(** ** Loading: statistics, frame and second scans *)
Section load_facts.
Import ToolEnvironmentManager.

Lemma load_directory_skipped (w : world) (r : string) (D : Path) (st : load_state) :
  r ≠ name D → load_directory w (Some r) D st = Some st.
Proof.
  intros Hne. unfold load_directory. rewrite bool_decide_eq_true_2; [done|].
  split; [by eexists | congruence].
Qed.

Lemma load_directory_taken (w : world) (request_tool_dir : option string) (D : Path)
    (st : load_state) :
  (request_tool_dir = None ∨ request_tool_dir = Some (name D)) →
  bool_decide (is_Some request_tool_dir ∧ request_tool_dir ≠ Some (name D)) = false.
Proof.
  intros Hreq. apply bool_decide_eq_false. intros [[x Hx] Hne].
  destruct Hreq as [-> | ->]; congruence.
Qed.

(** One turn of the loop: what it does to the cache and to the counters. *)
Lemma load_directory_effect (w : world) (request_tool_dir : option string) (D : Path)
    (st st' : load_state) :
  load_directory w request_tool_dir D st = Some st' →
  (∀ N, N ≠ name D → tools_cache st' !! N = tools_cache st !! N) ∧
  (∀ N, is_Some (tools_cache st !! N) → is_Some (tools_cache st' !! N)) ∧
  (cache_hits st' + cache_misses st' =
     cache_hits st + cache_misses st + length (requested request_tool_dir [D])) ∧
  length (errors st) ≤ length (errors st') ∧
  cache_misses st ≤ cache_misses st' ∧
  length (errors st') - length (errors st) ≤ cache_misses st' - cache_misses st.
Proof.
  intros Hload.
  destruct (decide (request_tool_dir = None ∨ request_tool_dir = Some (name D)))
    as [Hreq | Hreq].
  - assert (Hlen : length (requested request_tool_dir [D]) = 1).
    { unfold requested. simpl. destruct Hreq as [-> | ->]; [done|].
      by rewrite String.eqb_refl. }
    rewrite Hlen. unfold load_directory in Hload.
    rewrite (load_directory_taken w _ D st Hreq) in Hload.
    destruct (is_tool_cache_valid (tools_cache st) D).
    + destruct (tools_cache st !! name D) as [cached|]; [|done].
      destruct (add_tools _ _ _); simpl in Hload; [|done].
      injection Hload as <-. simpl. repeat split; auto; lia.
    + destruct (res_error _) as [e|].
      { injection Hload as <-. simpl. rewrite length_app. simpl.
        repeat split; auto; lia. }
      destruct (res_tools _) as [ds|]; [|injection Hload as <-; simpl; repeat split; auto; lia].
      destruct (alloc_all (heap st) ds) as [metadata heap'].
      destruct (add_tools _ _ _); simpl in Hload; [|done].
      injection Hload as <-. simpl. unfold update_tool_cache.
      split; [by intros N HN; rewrite lookup_insert_ne|].
      split; [|repeat split; auto; lia].
      intros N HN. destruct (decide (name D = N)) as [<- | Hne].
      * rewrite lookup_insert_eq. by eexists.
      * by rewrite lookup_insert_ne.
  - assert (Hskip : ∃ r, request_tool_dir = Some r ∧ r ≠ name D).
    { destruct request_tool_dir as [r|]; [|by destruct Hreq; left].
      exists r. split; [done|]. intros ->. apply Hreq. by right. }
    destruct Hskip as (r & -> & Hne).
    rewrite load_directory_skipped in Hload by done. injection Hload as <-.
    unfold requested. simpl. destruct (String.eqb_spec r (name D)); [done|]. simpl.
    repeat split; auto; lia.
Qed.

Lemma requested_cons (request_tool_dir : option string) (D : Path) (dirs : list Path) :
  requested request_tool_dir (D :: dirs) =
  requested request_tool_dir [D] ++ requested request_tool_dir dirs.
Proof.
  unfold requested. simpl.
  destruct request_tool_dir as [r|]; [|done]. by destruct (String.eqb r (name D)).
Qed.

Lemma elem_of_requested (request_tool_dir : option string) (D : Path) (dirs : list Path) :
  D ∈ requested request_tool_dir dirs ↔
  D ∈ dirs ∧ (request_tool_dir = None ∨ request_tool_dir = Some (name D)).
Proof.
  unfold requested. rewrite list_elem_of_In, filter_In, <- list_elem_of_In.
  destruct request_tool_dir as [r|]; [|naive_solver].
  destruct (String.eqb_spec r (name D)); naive_solver.
Qed.

Lemma load_directory_unrequested (w : world) (request_tool_dir : option string) (D : Path)
    (st st' : load_state) :
  ¬ (request_tool_dir = None ∨ request_tool_dir = Some (name D)) →
  load_directory w request_tool_dir D st = Some st' → st' = st.
Proof.
  intros Hreq Hload. destruct request_tool_dir as [r|]; [|by destruct Hreq; left].
  rewrite load_directory_skipped in Hload; [by injection Hload|].
  intros ->. apply Hreq. by right.
Qed.

Lemma load_directories_effect (w : world) (request_tool_dir : option string)
    (dirs : list Path) :
  ∀ st st', load_directories w request_tool_dir dirs st = Some st' →
    (∀ N, (∀ D, D ∈ requested request_tool_dir dirs → name D ≠ N) →
          tools_cache st' !! N = tools_cache st !! N) ∧
    (∀ N, is_Some (tools_cache st !! N) → is_Some (tools_cache st' !! N)) ∧
    (cache_hits st' + cache_misses st' =
       cache_hits st + cache_misses st + length (requested request_tool_dir dirs)) ∧
    length (errors st) ≤ length (errors st') ∧
    cache_misses st ≤ cache_misses st' ∧
    length (errors st') - length (errors st) ≤ cache_misses st' - cache_misses st ∧
    (∀ l, is_Some (heap st !! l) → heap st' !! l = heap st !! l).
Proof.
  induction dirs as [|D dirs IH]; intros st st' Hload; simpl in Hload.
  - injection Hload as <-. simpl. repeat split; auto; lia.
  - destruct (load_directory w request_tool_dir D st) as [st1|] eqn:H1; [|done].
    destruct (load_directory_effect _ _ _ _ _ H1) as (Ho1 & Hk1 & Hc1 & He1 & Hm1 & Hd1).
    destruct (IH _ _ Hload) as (Ho & Hk & Hc & He & Hm & Hd & Hh).
    rewrite requested_cons, length_app.
    split; [|split; [|split; [|split; [|split; [|split]]]]]; try lia.
    + intros N HN. rewrite Ho.
      * destruct (decide (request_tool_dir = None ∨ request_tool_dir = Some (name D)))
          as [Hreq | Hreq].
        -- apply Ho1. intros Heq. apply (HN D); [|done].
           apply elem_of_app. left. apply elem_of_requested.
           split; [apply list_elem_of_here | done].
        -- by rewrite (load_directory_unrequested _ _ _ _ _ Hreq H1).
      * intros D' HD'. apply HN. apply elem_of_app. by right.
    + intros N HN. by apply Hk, Hk1.
    + intros l Hl.
      pose proof (load_directory_old_objects _ _ _ _ _ H1 l Hl) as Hold.
      rewrite Hh; [done|]. by rewrite Hold.
Qed.

(** X4. The statistics of a load add up: every directory the load works on
    counts as exactly one cache hit or one cache miss, and every recorded
    error belongs to a miss. *)
Theorem load_all_tools_statistics (w : world) (request_tool_dir : option string)
    (heap0 : gmap positive (gmap string pyval)) (cache0 : gmap string cache_entry)
    (st : load_state) :
  load_all_tools w request_tool_dir heap0 cache0 = Some st →
  cache_hits st + cache_misses st =
    length (requested request_tool_dir (get_tool_directories (listing w))) ∧
  length (errors st) ≤ cache_misses st.
Proof.
  intros Hload. unfold load_all_tools in Hload.
  destruct (load_directories_effect _ _ _ _ _ Hload) as (_ & _ & Hc & He & Hm & Hd & _).
  simpl in *. lia.
Qed.

(** X5. What a load leaves alone: it never drops a cache entry, it leaves
    the entry of every name it does not work on as it was (with a target,
    every entry but the target's), and it changes no descriptor object that
    already exists. *)
Theorem load_all_tools_frame (w : world) (request_tool_dir : option string)
    (heap0 : gmap positive (gmap string pyval)) (cache0 : gmap string cache_entry)
    (st : load_state) :
  load_all_tools w request_tool_dir heap0 cache0 = Some st →
  (∀ N, is_Some (cache0 !! N) → is_Some (tools_cache st !! N)) ∧
  (∀ N, (∀ D, D ∈ requested request_tool_dir (get_tool_directories (listing w)) →
              name D ≠ N) →
        tools_cache st !! N = cache0 !! N) ∧
  (∀ r N, request_tool_dir = Some r → N ≠ r → tools_cache st !! N = cache0 !! N) ∧
  (∀ l, is_Some (heap0 !! l) → heap st !! l = heap0 !! l).
Proof.
  intros Hload. unfold load_all_tools in Hload.
  destruct (load_directories_effect _ _ _ _ _ Hload) as (Ho & Hk & _ & _ & _ & _ & Hh).
  simpl in *. split; [done|]. split; [done|]. split; [|done].
  intros r N -> HN. apply Ho. intros D [_ [Hr | Hr]]%elem_of_requested; congruence.
Qed.

Lemma is_tool_cache_valid_ext (c1 c2 : gmap string cache_entry) (D : Path) :
  c1 !! name D = c2 !! name D → is_tool_cache_valid c1 D = is_tool_cache_valid c2 D.
Proof. intros Heq. unfold is_tool_cache_valid. by rewrite Heq. Qed.

Lemma load_directory_makes_valid (w : world) (request_tool_dir : option string) (D : Path)
    (st st' : load_state) :
  (request_tool_dir = None ∨ request_tool_dir = Some (name D)) →
  load_directory w request_tool_dir D st = Some st' →
  is_tool_cache_valid (tools_cache st) D = true ∨
    (res_error (load_tools_from_environment w D) = None ∧
     is_Some (res_tools (load_tools_from_environment w D))) →
  is_tool_cache_valid (tools_cache st') D = true.
Proof.
  intros Hreq Hload Hok. unfold load_directory in Hload.
  rewrite (load_directory_taken w _ D st Hreq) in Hload.
  destruct (is_tool_cache_valid (tools_cache st) D) eqn:Hvalid.
  - destruct (tools_cache st !! name D) as [cached|]; [|done].
    destruct (add_tools _ _ _); simpl in Hload; [|done]. by injection Hload as <-.
  - destruct Hok as [? | [Herr [ds Hds]]]; [done|].
    rewrite Herr, Hds in Hload.
    destruct (alloc_all (heap st) ds) as [metadata heap'].
    destruct (add_tools _ _ _); simpl in Hload; [|done].
    injection Hload as <-. simpl.
    by apply (update_tool_cache_valid_here D).
Qed.

Lemma load_directories_make_valid (w : world) (request_tool_dir : option string)
    (dirs : list Path) :
  ∀ st st',
    NoDup (name <$> dirs) →
    load_directories w request_tool_dir dirs st = Some st' →
    ∀ D, D ∈ requested request_tool_dir dirs →
      is_tool_cache_valid (tools_cache st) D = true ∨
        (res_error (load_tools_from_environment w D) = None ∧
         is_Some (res_tools (load_tools_from_environment w D))) →
      is_tool_cache_valid (tools_cache st') D = true.
Proof.
  induction dirs as [|D0 dirs IH]; intros st st' Hnd Hload D HD Hok; simpl in Hload.
  - by apply elem_of_nil in HD.
  - destruct (load_directory w request_tool_dir D0 st) as [st1|] eqn:H1; [|done].
    rewrite fmap_cons in Hnd. apply NoDup_cons in Hnd as [Hfresh Hnd].
    apply elem_of_requested in HD as [[-> | Hin]%elem_of_cons Hreq].
    + rewrite (is_tool_cache_valid_ext _ (tools_cache st1)).
      * by apply (load_directory_makes_valid w request_tool_dir D0 st st1).
      * destruct (load_directories_effect _ _ _ _ _ Hload) as (Ho & _).
        apply Ho. intros D' [HD' _]%elem_of_requested Heq.
        apply Hfresh. rewrite <- Heq. apply list_elem_of_fmap. eauto.
    + apply (IH st1 st' Hnd Hload D); [by apply elem_of_requested|].
      destruct Hok as [Hvalid | Hloads]; [left | by right].
      rewrite <- Hvalid. apply is_tool_cache_valid_ext.
      destruct (load_directory_effect _ _ _ _ _ H1) as (Ho1 & _).
      apply Ho1. intros Heq. apply Hfresh. rewrite <- Heq.
      apply list_elem_of_fmap. eauto.
Qed.

(** X6. A load makes the next one cheap: when the plugin root lists each
    name once, every directory the load works on that was a cache hit, or
    whose introspection produced tools without an error, is a cache hit in
    the cache the load leaves behind (for the same state of its files). *)
Theorem load_all_tools_then_valid (w : world) (request_tool_dir : option string)
    (heap0 : gmap positive (gmap string pyval)) (cache0 : gmap string cache_entry)
    (st : load_state) (D : Path) :
  NoDup (name <$> listing w) →
  load_all_tools w request_tool_dir heap0 cache0 = Some st →
  D ∈ requested request_tool_dir (get_tool_directories (listing w)) →
  is_tool_cache_valid cache0 D = true ∨
    (res_error (load_tools_from_environment w D) = None ∧
     is_Some (res_tools (load_tools_from_environment w D))) →
  is_tool_cache_valid (tools_cache st) D = true.
Proof.
  intros Hnd Hload HD Hok. unfold load_all_tools in Hload.
  apply (load_directories_make_valid w request_tool_dir _ _ st) with (D := D) in Hload;
    [done| |done|done].
  apply (sublist_NoDup _ (name <$> listing w)); [done|].
  apply fmap_sublist, get_tool_directories_sublist.
Qed.

Lemma some_default_eta {A} (o : option A) (d : A) : is_Some o → o = Some (default d o).
Proof. by intros [x ->]. Qed.

Lemma sample_load_returns : sample_load = Some sample_loaded.
Proof. apply some_default_eta. apply (bool_decide_unpack _). vm_compute. exact I. Qed.

Lemma sample_listing_NoDup : NoDup (name <$> listing (DynamicToolLoader.env sample_world)).
Proof. apply (bool_decide_unpack _). vm_compute. exact I. Qed.

(** Loading the sample plugin root from an empty cache: one directory, one
    miss. *)
Lemma load_all_tools_statistics_witness :
  sample_load = Some sample_loaded ∧
  cache_hits sample_loaded + cache_misses sample_loaded = 1.
Proof.
  split; [exact sample_load_returns|].
  destruct (load_all_tools_statistics (DynamicToolLoader.env sample_world) None sample_heap ∅
              sample_loaded sample_load_returns) as [Hcount _].
  exact Hcount.
Defined.

(** The same load leaves the descriptor stored at location 1 as it was. *)
Lemma load_all_tools_frame_witness :
  sample_load = Some sample_loaded ∧
  heap sample_loaded !! 1%positive = sample_heap !! 1%positive.
Proof.
  split; [exact sample_load_returns|].
  destruct (load_all_tools_frame (DynamicToolLoader.env sample_world) None sample_heap ∅
              sample_loaded sample_load_returns) as (_ & _ & _ & Hheap).
  apply Hheap. apply (bool_decide_unpack _). vm_compute. exact I.
Defined.

(** After the same load the directory [calc] is a cache hit. *)
Lemma load_all_tools_then_valid_witness :
  NoDup (name <$> listing (DynamicToolLoader.env sample_world)) ∧
  sample_load = Some sample_loaded ∧
  is_tool_cache_valid (tools_cache sample_loaded) calc_dir = true.
Proof.
  split; [exact sample_listing_NoDup|]. split; [exact sample_load_returns|].
  apply (load_all_tools_then_valid (DynamicToolLoader.env sample_world) None sample_heap ∅
           sample_loaded calc_dir sample_listing_NoDup sample_load_returns).
  - change (calc_dir ∈ [calc_dir]). apply list_elem_of_here.
  - right. split; [reflexivity | by eexists].
Defined.

End load_facts.

(** ** Change tracker: empty diffs, history growth and symmetry *)
Section change_tracker_more.
Import ToolChangeManager.





Lemma _get_detailed_diff_swap (old_desc new_desc : gmap string pyval) :
  _get_detailed_diff new_desc old_desc = swap_change <$> _get_detailed_diff old_desc new_desc.
Proof.
  apply map_eq. intros k. rewrite lookup_fmap, !_get_detailed_diff_lookup.
  destruct (decide (dict_get new_desc k = dict_get old_desc k)) as [Heq | Hne].
  - rewrite decide_True by done. done.
  - rewrite decide_False by congruence. done.
Qed.

(** X9. Reading the comparison backwards mirrors the diff: what is added
    from the previous to the current snapshot is what is removed from the
    current to the previous one, and a tool is modified one way exactly when
    it is modified the other way, with the two descriptors and the old and
    new value of every changed key exchanged. *)
Theorem detect_changes_swap (previous_tools current_tools : gmap string (gmap string pyval)) :
  added (detect_changes previous_tools current_tools)
    = removed (detect_changes current_tools previous_tools) ∧
  removed (detect_changes previous_tools current_tools)
    = added (detect_changes current_tools previous_tools) ∧
  ∀ e, e ∈ modified (detect_changes previous_tools current_tools) ↔
       swap_modified e ∈ modified (detect_changes current_tools previous_tools).
Proof.
  split; [done|]. split; [done|].
  intros e. rewrite !elem_of_modified. destruct e as [n p c d]; simpl. split.
  - intros (Hp & Hc & Hne & ->). repeat split; try done; try congruence.
    symmetry. apply _get_detailed_diff_swap.
  - intros (Hc & Hp & Hne & Hd). repeat split; try done; try congruence.
    apply map_eq. intros k.
    assert (Hk : (swap_change <$> d) !! k = _get_detailed_diff c p !! k) by by rewrite Hd.
    rewrite lookup_fmap, (_get_detailed_diff_swap p c), lookup_fmap in Hk.
    destruct (d !! k) as [[o1 n1]|], (_get_detailed_diff p c !! k) as [[o2 n2]|];
      simpl in Hk; try done.
    unfold swap_change in Hk. simpl in Hk. congruence.
Qed.



End change_tracker_more.

(** ** Execution worker: outcome and wire form of the reply *)
Section execution_worker_more.
Import tool_execution_script.





End execution_worker_more.

(** ** Tool proxy: when a call returns, and the proxy in front of the worker *)
Section tool_proxy_more.
Import ToolProxy.

Lemma proxy_call_completed (w : world) (self : t) (args : list pyval)
    (kwargs : gmap string pyval) (stdout : string) :
  script_exists w = true →
  json_serializable (call_params self args kwargs) = true →
  subprocess_run w (python_executable self) (call_params self args kwargs) (tool_dir self)
    = Completed stdout →
  __call__ w self args kwargs =
  match json_loads w stdout with
  | None => Return (PStr stdout)
  | Some (PDict output) =>
      if truthy (dict_get output "success") then
        match output !! "result" with
        | Some result => Return result
        | None => Raise (KeyError "result")
        end
      else
        Raise (RuntimeError
                 ("Tool execution error: "
                  +:+ py_str (dict_get_default output "error" (PStr ""))
                  +:+ String newline EmptyString
                  +:+ py_str (dict_get_default output "traceback" (PStr ""))))
  | Some _ => Raise AttributeError
  end.
Proof. intros Hscript Hparams Hrun. unfold __call__. by rewrite Hscript, Hparams, Hrun. Qed.

(** X13. A proxy call returns a value in exactly two situations, both after
    the worker script was found, the parameters serialized and the child
    finished within the timeout: the child's output is not JSON, and the
    value is that output as text; or the output is a JSON object whose
    [success] is truthy and which holds a [result], and the value is that
    result. In particular a child whose output is JSON but not an object, or
    an object without [success], never makes the call return. *)
Theorem proxy_call_returns_iff (w : world) (self : t) (args : list pyval)
    (kwargs : gmap string pyval) (v : pyval) :
  (__call__ w self args kwargs = Return v ↔
   script_exists w = true ∧
   json_serializable (call_params self args kwargs) = true ∧
   ∃ stdout,
     subprocess_run w (python_executable self) (call_params self args kwargs) (tool_dir self)
       = Completed stdout ∧
     ((json_loads w stdout = None ∧ v = PStr stdout) ∨
      (∃ output, json_loads w stdout = Some (PDict output) ∧
         truthy (dict_get output "success") = true ∧
         output !! "result" = Some v))) ∧
  (∀ stdout output,
     subprocess_run w (python_executable self) (call_params self args kwargs) (tool_dir self)
       = Completed stdout →
     json_loads w stdout = Some output →
     (∀ d, output = PDict d → d !! "success" = None) →
     ∃ e, __call__ w self args kwargs = Raise e).
Proof.
  split.
  - split.
    + intros Hret.
      destruct (script_exists w) eqn:Hscript;
        [|unfold __call__ in Hret; rewrite Hscript in Hret; discriminate Hret].
      destruct (json_serializable (call_params self args kwargs)) eqn:Hparams;
        [|unfold __call__ in Hret; rewrite Hscript, Hparams in Hret; discriminate Hret].
      destruct (subprocess_run w (python_executable self) (call_params self args kwargs)
                  (tool_dir self)) as [|stdout] eqn:Hrun;
        [unfold __call__ in Hret; rewrite Hscript, Hparams, Hrun in Hret; discriminate Hret|].
      rewrite (proxy_call_completed w self args kwargs stdout Hscript Hparams Hrun) in Hret.
      clear Hscript Hparams Hrun.
      split; [reflexivity|]. split; [reflexivity|]. exists stdout. split; [reflexivity|].
      destruct (json_loads w stdout) as [[| | | | |output| |]|]; try discriminate Hret.
      * right. exists output. split; [reflexivity|].
        destruct (truthy (dict_get output "success")); [|discriminate Hret].
        split; [reflexivity|].
        destruct (output !! "result"); [|discriminate Hret]. by injection Hret as ->.
      * left. split; [reflexivity|]. by injection Hret as <-.
    + intros (Hscript & Hparams & stdout & Hrun & Hcases).
      rewrite (proxy_call_completed w self args kwargs stdout Hscript Hparams Hrun).
      clear Hscript Hparams Hrun.
      destruct Hcases as [[-> ->] | (output & -> & -> & ->)]; reflexivity.
  - intros stdout output Hrun Hloads Hsuccess.
    destruct (script_exists w) eqn:Hscript;
      [|unfold __call__; rewrite Hscript; eexists; reflexivity].
    destruct (json_serializable (call_params self args kwargs)) eqn:Hparams;
      [|unfold __call__; rewrite Hscript, Hparams; eexists; reflexivity].
    rewrite (proxy_call_completed w self args kwargs stdout Hscript Hparams Hrun), Hloads.
    clear Hscript Hparams Hrun.
    destruct output as [| | | | |d| |]; try (eexists; reflexivity).
    unfold dict_get at 1. rewrite (Hsuccess d eq_refl). eexists; reflexivity.
Qed.



End tool_proxy_more.

(** ** Dynamic loader: what a scan files, what a reconciliation keeps *)
Section loader_more.
Import DynamicToolLoader.
Context `{FastMCP}.

(** The loop of [scan_and_load_tools]: every entry of [new_tools] has its
    proxy in the table under the same name, built for the directory named
    by the part of the tool's name before the first hyphen; proxies are new
    objects, one per tool; the table loses nothing. *)
Lemma scan_loop_files (w : world) (heap : gmap positive (gmap string pyval))
    (proxies0 : gmap string ToolProxy.t) (next0 : N) (all_tools : gmap string positive) :
  let r := map_fold (scan_tool w heap) (∅, proxies0, next0) all_tools in
  (next0 ≤ r.2)%N ∧
  (∀ n, all_tools !! n = None → r.1.1 !! n = None) ∧
  (∀ n, r.1.1 !! n = None → r.1.2 !! n = proxies0 !! n) ∧
  (∀ n info, r.1.1 !! n = Some info →
     r.1.2 !! n = Some (proxy info) ∧
     tool_dir info = split_head hyphen n ∧
     path_exists w (tool_dir info) = true ∧
     get_python_executable w (tool_dir info) = Some (python_exe info) ∧
     ToolProxy.tool_dir (proxy info) = tool_dir info ∧
     ToolProxy.python_executable (proxy info) = python_exe info ∧
     tool_name_of (heap !!! tool_data info) = Some (ToolProxy.tool_name (proxy info)) ∧
     (next0 ≤ ToolProxy.proxy_id (proxy info) < r.2)%N) ∧
  (∀ n1 n2 info1 info2, r.1.1 !! n1 = Some info1 → r.1.1 !! n2 = Some info2 →
     ToolProxy.proxy_id (proxy info1) = ToolProxy.proxy_id (proxy info2) → n1 = n2).
Proof.
  apply (map_fold_weak_ind (fun r m =>
    (next0 ≤ r.2)%N ∧
    (∀ n, m !! n = None → r.1.1 !! n = None) ∧
    (∀ n, r.1.1 !! n = None → r.1.2 !! n = proxies0 !! n) ∧
    (∀ n info, r.1.1 !! n = Some info →
       r.1.2 !! n = Some (proxy info) ∧
       tool_dir info = split_head hyphen n ∧
       path_exists w (tool_dir info) = true ∧
       get_python_executable w (tool_dir info) = Some (python_exe info) ∧
       ToolProxy.tool_dir (proxy info) = tool_dir info ∧
       ToolProxy.python_executable (proxy info) = python_exe info ∧
       tool_name_of (heap !!! tool_data info) = Some (ToolProxy.tool_name (proxy info)) ∧
       (next0 ≤ ToolProxy.proxy_id (proxy info) < r.2)%N) ∧
    (∀ n1 n2 info1 info2, r.1.1 !! n1 = Some info1 → r.1.1 !! n2 = Some info2 →
       ToolProxy.proxy_id (proxy info1) = ToolProxy.proxy_id (proxy info2) → n1 = n2))).
  - simpl. split; [lia|]. split; [done|]. split; [done|].
    split; intros *; by rewrite lookup_empty.
  - intros i l m [[new_tools proxies] next] Hi (Hnext & Hdom & Hkept & Hfiled & Hinj).
    simpl in Hnext, Hdom, Hkept, Hfiled, Hinj.
    assert (Hskip :
      (next0 ≤ (new_tools, proxies, next).2)%N ∧
      (∀ n, <[i := l]> m !! n = None → (new_tools, proxies, next).1.1 !! n = None) ∧
      (∀ n, (new_tools, proxies, next).1.1 !! n = None →
            (new_tools, proxies, next).1.2 !! n = proxies0 !! n) ∧
      (∀ n info, (new_tools, proxies, next).1.1 !! n = Some info →
         (new_tools, proxies, next).1.2 !! n = Some (proxy info) ∧
         tool_dir info = split_head hyphen n ∧
         path_exists w (tool_dir info) = true ∧
         get_python_executable w (tool_dir info) = Some (python_exe info) ∧
         ToolProxy.tool_dir (proxy info) = tool_dir info ∧
         ToolProxy.python_executable (proxy info) = python_exe info ∧
         tool_name_of (heap !!! tool_data info) = Some (ToolProxy.tool_name (proxy info)) ∧
         (next0 ≤ ToolProxy.proxy_id (proxy info) < (new_tools, proxies, next).2)%N) ∧
      (∀ n1 n2 info1 info2, (new_tools, proxies, next).1.1 !! n1 = Some info1 →
         (new_tools, proxies, next).1.1 !! n2 = Some info2 →
         ToolProxy.proxy_id (proxy info1) = ToolProxy.proxy_id (proxy info2) → n1 = n2)).
    { simpl. split; [done|]. split; [|done].
      intros n Hn. apply Hdom. apply lookup_insert_None in Hn. tauto. }
    unfold scan_tool.
    destruct (path_exists w (split_head hyphen i)) eqn:Hexists; [|exact Hskip].
    destruct (get_python_executable w (split_head hyphen i)) as [exe|] eqn:Hexe;
      [|exact Hskip].
    destruct (create_proxy l (heap !!! l) (split_head hyphen i) exe next) as [p|] eqn:Hp;
      [|exact Hskip].
    clear Hskip. unfold create_proxy in Hp.
    destruct (tool_name_of (heap !!! l)) as [tn|] eqn:Htn; [|done].
    injection Hp as <-. simpl.
    split; [lia|]. split; [|split; [|split]].
    + intros n Hn. apply lookup_insert_None in Hn as [Hm Hne].
      rewrite lookup_insert_ne by done. by apply Hdom.
    + intros n Hn. apply lookup_insert_None in Hn as [Hn Hne].
      rewrite lookup_insert_ne by done. by apply Hkept.
    + intros n info Hn. destruct (decide (i = n)) as [-> | Hne].
      * rewrite lookup_insert_eq in Hn. injection Hn as <-. simpl.
        rewrite lookup_insert_eq. repeat (split; [done|]). lia.
      * rewrite lookup_insert_ne in Hn by done. rewrite lookup_insert_ne by done.
        destruct (Hfiled n info Hn) as (? & ? & ? & ? & ? & ? & ? & ?).
        repeat (split; [done|]). lia.
    + intros n1 n2 info1 info2 H1 H2 Hid.
      destruct (decide (n1 = i)) as [-> | Hne1]; destruct (decide (n2 = i)) as [-> | Hne2].
      * done.
      * rewrite lookup_insert_eq in H1. injection H1 as <-.
        rewrite lookup_insert_ne in H2 by done. simpl in Hid.
        destruct (Hfiled n2 info2 H2) as (_ & _ & _ & _ & _ & _ & _ & Hrange). lia.
      * rewrite lookup_insert_eq in H2. injection H2 as <-.
        rewrite lookup_insert_ne in H1 by done. simpl in Hid.
        destruct (Hfiled n1 info1 H1) as (_ & _ & _ & _ & _ & _ & _ & Hrange). lia.
      * rewrite lookup_insert_ne in H1, H2 by done. by apply (Hinj n1 n2 info1 info2).
Qed.

(** X15. What a scan files. When the plugin root lists each name once and
    [scan_and_load_tools] returns, every tool of the returned set has a
    proxy in the proxy manager's table under the tool's own name; the proxy
    carries that name, works in the directory named by the part of the name
    before the first hyphen, which exists, and runs that directory's
    interpreter; distinct tools have distinct proxy objects, none of which
    existed before. The scan removes no proxy: a name it does not return
    keeps the proxy it had. It touches neither the registry nor the change
    manager. *)
Theorem scan_and_load_tools_proxies (w : world) (request_tool_name : option string)
    (s : server) (new_tools : gmap string tool_info) (s' : server) :
  NoDup (ToolEnvironmentManager.name <$> ToolEnvironmentManager.listing (env w)) →
  scan_and_load_tools w request_tool_name s = Some (new_tools, s') →
  (∀ n info, new_tools !! n = Some info →
     proxies s' !! n = Some (proxy info) ∧
     ToolProxy.tool_name (proxy info) = n ∧
     tool_dir info = split_head hyphen n ∧
     path_exists w (tool_dir info) = true ∧
     get_python_executable w (tool_dir info) = Some (python_exe info) ∧
     ToolProxy.tool_dir (proxy info) = tool_dir info ∧
     ToolProxy.python_executable (proxy info) = python_exe info ∧
     (next_proxy s ≤ ToolProxy.proxy_id (proxy info) < next_proxy s')%N) ∧
  (∀ n1 n2 info1 info2, new_tools !! n1 = Some info1 → new_tools !! n2 = Some info2 →
     ToolProxy.proxy_id (proxy info1) = ToolProxy.proxy_id (proxy info2) → n1 = n2) ∧
  (∀ n, new_tools !! n = None → proxies s' !! n = proxies s !! n) ∧
  registry s' = registry s ∧
  change_manager s' = change_manager s.
Proof.
  intros Hnd Hscan. unfold scan_and_load_tools in Hscan.
  destruct (ToolEnvironmentManager.load_all_tools _ _ _ _) as [loaded|] eqn:Hload; [|done].
  pose proof (scan_loop_files w (ToolEnvironmentManager.heap loaded) (proxies s)
                (next_proxy s) (ToolEnvironmentManager.all_tools loaded)) as Hloop.
  pose proof (scan_tools_spec w (ToolEnvironmentManager.heap loaded) (proxies s)
                (next_proxy s) (ToolEnvironmentManager.all_tools loaded)) as Hscanned.
  destruct (map_fold _ _ _) as [[tools proxies'] next'].
  injection Hscan as <- <-. simpl in Hloop, Hscanned.
  destruct Hloop as (_ & _ & Hkept & Hfiled & Hinj).
  pose proof (load_all_tools_returned _ _ _ _ _ Hnd Hload) as Hret.
  simpl. split; [|done].
  intros n info Hn.
  destruct (Hfiled n info Hn) as (Hp & Hdir & Hex & Hexe & Hpd & Hpe & Hname & Hid).
  destruct (Hscanned n info Hn) as [Hall _].
  destruct (Hret n _ Hall) as [Hn' _]. rewrite Hn' in Hname.
  injection Hname as Hname. done.
Qed.

(** X16. What a reconciliation registers and what it keeps. When the
    registry files every validated tool under the name it is loaded under:
    a loaded tool whose descriptor validates is registered under its name
    afterwards; a loaded tool whose descriptor fails validation keeps
    whatever registration its name had; and a name without a hyphen that is
    not loaded (a built-in tool) keeps its registration and appears nowhere
    in the reported diff. *)
Theorem reconcile_registers_loaded (tools_dir_name now : string)
    (tools : gmap string tool_info) (request_tool_name : option string) (s : server) :
  keys_agree (heap s) tools →
  let r := register_tools_to_mcp tools_dir_name now tools request_tool_name s in
  (∀ n info function_tool, tools !! n = Some info →
     validated (heap s) info = Some function_tool →
     registry r.2 !! n = Some function_tool) ∧
  (∀ n info, tools !! n = Some info → validated (heap s) info = None →
     registry r.2 !! n = registry s !! n) ∧
  (∀ n, tools !! n = None → str_contains "-" n = false →
     registry r.2 !! n = registry s !! n ∧
     (n ∉ ToolChangeManager.entry_names (ToolChangeManager.added r.1)) ∧
     (n ∉ ToolChangeManager.entry_names (ToolChangeManager.removed r.1)) ∧
     (n ∉ ToolChangeManager.modified_names (ToolChangeManager.modified r.1))).
Proof.
  intros Hkeys r.
  destruct (register_tools_to_mcp_spec tools_dir_name now tools request_tool_name s)
    as (_ & _ & _ & Hcur & Hdiff & Hreg).
  fold r in Hcur, Hdiff, Hreg. specialize (Hreg Hkeys).
  assert (Hfire : ∀ n, is_Some (tools !! n) →
            removal_fires tools (request_tool_dir tools_dir_name request_tool_name) n = false).
  { intros n [info Hn]. unfold removal_fires.
    rewrite bool_decide_eq_false_2 by congruence. done. }
  split; [|split].
  - intros n info t Hn Ht. rewrite (Hreg n), (Hfire n) by eauto.
    unfold registered_tool. rewrite Hn. simpl. rewrite Ht.
    by destruct (existing_descriptions (registry s) !! n).
  - intros n info Hn Ht. rewrite (Hreg n), (Hfire n) by eauto.
    unfold registered_tool. rewrite Hn. simpl. rewrite Ht.
    by destruct (existing_descriptions (registry s) !! n).
  - intros n Hn Hplain.
    assert (Hold : existing_descriptions (registry s) !! n = None).
    { by rewrite existing_descriptions_lookup, Hplain. }
    assert (Hnew : ToolChangeManager.current_tools (change_manager r.2) !! n = None).
    { rewrite Hcur. unfold registered_tool. by rewrite Hn. }
    split; [|split; [|split]].
    + rewrite (Hreg n), Hold. unfold registered_tool. by rewrite Hn.
    + rewrite Hdiff, elem_of_added_names, Hnew. by intros [[? ?] _].
    + rewrite Hdiff, elem_of_removed_names, Hold. by intros [[? ?] _].
    + rewrite Hdiff, elem_of_modified_names, Hold. naive_solver.
Qed.

(** The registration loop writes to the descriptor objects of the loaded
    tools only. *)
Lemma register_loop_other_objects (heap0 : gmap positive (gmap string pyval))
    (reg0 : gmap string FunctionTool) (tools : gmap string tool_info) (l : positive) :
  (∀ n info, tools !! n = Some info → tool_data info ≠ l) →
  (map_fold register_tool (heap0, reg0, ∅) tools).1.1 !! l = heap0 !! l.
Proof.
  apply (map_fold_weak_ind (fun r m =>
    (∀ n info, m !! n = Some info → tool_data info ≠ l) → r.1.1 !! l = heap0 !! l)).
  - done.
  - intros i x m [[h reg] nd] Hi IH Hother. simpl in IH.
    assert (Hheap : (register_tool i x (h, reg, nd)).1.1 =
              <[tool_data x := <["fn" := PMethod (ToolProxy.proxy_id (proxy x))]>
                                 (h !!! tool_data x)]> h).
    { unfold register_tool. by destruct (model_validate _). }
    rewrite Hheap, lookup_insert_ne.
    + apply IH. intros n info Hn. apply (Hother n). rewrite lookup_insert_ne; [done|].
      congruence.
    + apply (Hother i). apply lookup_insert_eq.
Qed.

(** X17. What a reconciliation leaves alone: the cache of the environment
    manager, the proxy table and the next proxy identity are unchanged;
    every descriptor object keeps all its entries but ["fn"]; an object that
    is the descriptor of no loaded tool is not written to at all; and the
    change history is left as it is when the reported diff is empty, and
    otherwise grows by one record, which carries that diff. *)
Theorem reconcile_frame (tools_dir_name now : string)
    (tools : gmap string tool_info) (request_tool_name : option string) (s : server) :
  let r := register_tools_to_mcp tools_dir_name now tools request_tool_name s in
  tools_cache r.2 = tools_cache s ∧
  proxies r.2 = proxies s ∧
  next_proxy r.2 = next_proxy s ∧
  same_but_fn (heap r.2) (heap s) ∧
  (∀ l, (∀ n info, tools !! n = Some info → tool_data info ≠ l) →
        heap r.2 !! l = heap s !! l) ∧
  ToolChangeManager.change_history (change_manager r.2) =
    if ToolChangeManager.has_changes r.1
    then ToolChangeManager.change_history (change_manager s)
         ++ [{| ToolChangeManager.timestamp := now; ToolChangeManager.recorded := r.1 |}]
    else ToolChangeManager.change_history (change_manager s).
Proof.
  intros r.
  destruct (register_tools_to_mcp_spec tools_dir_name now tools request_tool_name s)
    as (Hsame & Hcache & _).
  destruct (register_tools_to_mcp_heap tools_dir_name now tools request_tool_name s)
    as [Hheap _].
  fold r in Hsame, Hcache, Hheap.
  split; [done|].
  assert (Hrest : proxies r.2 = proxies s ∧ next_proxy r.2 = next_proxy s ∧
    ToolChangeManager.change_history (change_manager r.2) =
      if ToolChangeManager.has_changes r.1
      then ToolChangeManager.change_history (change_manager s)
           ++ [{| ToolChangeManager.timestamp := now; ToolChangeManager.recorded := r.1 |}]
      else ToolChangeManager.change_history (change_manager s)).
  { subst r. unfold register_tools_to_mcp.
    destruct (map_fold register_tool (heap s, registry s, ∅) tools) as [[h reg] nd].
    unfold ToolChangeManager.update_tools. simpl. done. }
  destruct Hrest as (Hp & Hnext & Hhist).
  split; [done|]. split; [done|]. split; [done|]. split; [|done].
  intros l Hl. rewrite Hheap. by apply register_loop_other_objects.
Qed.

End loader_more.

(** ** The loader on the sample data *)
Section loader_examples.
Import DynamicToolLoader.

Lemma sample_scan_returns : sample_scan = Some (sample_tools, sample_scanned_server).
Proof. apply some_pair_eta. apply (bool_decide_unpack _). vm_compute. exact I. Qed.

(** The scan of the sample plugin root files the proxy of every tool it
    returns under the tool's name. *)
Lemma scan_and_load_tools_proxies_witness :
  NoDup (ToolEnvironmentManager.name <$> ToolEnvironmentManager.listing (env sample_world)) ∧
  sample_scan = Some (sample_tools, sample_scanned_server) ∧
  is_Some (sample_tools !! "calc-add") ∧
  ∀ n info, sample_tools !! n = Some info →
    proxies sample_scanned_server !! n = Some (proxy info) ∧
    ToolProxy.tool_name (proxy info) = n.
Proof.
  split; [exact sample_listing_NoDup|]. split; [exact sample_scan_returns|]. split.
  - apply (bool_decide_unpack _). vm_compute. exact I.
  - intros n info Hn.
    destruct (@scan_and_load_tools_proxies plain_registry sample_world None (server_with ∅)
                sample_tools sample_scanned_server sample_listing_NoDup sample_scan_returns)
      as (Hfiled & _).
    destruct (Hfiled n info Hn) as (Hp & Hname & _). split; [exact Hp | exact Hname].
Defined.

(** The refresh targeted at [calc-add] registers the loaded tool, bound to
    its proxy. *)
Lemma reconcile_registers_loaded_witness :
  @keys_agree plain_registry (heap server_with_notes) loaded_add ∧
  registry (@register_tools_to_mcp plain_registry "tools" "t" loaded_add (Some "calc-add")
              server_with_notes).2 !! "calc-add"
    = Some (plain_tool_of "calc-add" "Add two numbers" 5).
Proof.
  split; [exact sample_keys_agree|].
  destruct (@reconcile_registers_loaded plain_registry "tools" "t" loaded_add
              (Some "calc-add") server_with_notes sample_keys_agree) as (Hreg & _).
  apply (Hreg "calc-add" (info_of 1 5 "calc" "calc-add" "add")).
  - reflexivity.
  - vm_compute. reflexivity.
Defined.

End loader_examples.

(** ** Middleware: the refresh in front of a call and of a listing *)
Section middleware_facts.
Import DynamicToolLoader DynamicToolMiddleware.
Context `{FastMCP}.
Context {ToolResult : Type}.

Lemma scan_and_load_tools_registry (w : world) (request_tool_name : option string)
    (s : server) (tools : gmap string tool_info) (s1 : server) :
  scan_and_load_tools w request_tool_name s = Some (tools, s1) →
  registry s1 = registry s ∧ change_manager s1 = change_manager s.
Proof.
  unfold scan_and_load_tools.
  destruct (ToolEnvironmentManager.load_all_tools _ _ _ _) as [loaded|]; [|done].
  destruct (map_fold _ _ _) as [[new_tools proxies'] next'].
  by intros [= <- <-].
Qed.

(** The registry a reconciliation leaves, name by name, for the loaded
    names and for the names without a hyphen. *)
Lemma registry_after_reconcile (tools_dir_name now : string)
    (tools : gmap string tool_info) (request_tool_name : option string) (s : server) :
  keys_agree (heap s) tools →
  let r := register_tools_to_mcp tools_dir_name now tools request_tool_name s in
  (∀ n info, tools !! n = Some info →
     registry r.2 !! n = match validated (heap s) info with
                         | Some function_tool => Some function_tool
                         | None => registry s !! n
                         end) ∧
  (∀ n, tools !! n = None → str_contains "-" n = false →
     registry r.2 !! n = registry s !! n).
Proof.
  intros Hkeys r.
  destruct (register_tools_to_mcp_spec tools_dir_name now tools request_tool_name s)
    as (_ & _ & _ & _ & _ & Hreg).
  fold r in Hreg. specialize (Hreg Hkeys). split.
  - intros n info Hn. rewrite (Hreg n). unfold removal_fires, registered_tool.
    rewrite Hn, bool_decide_eq_false_2 by congruence. simpl.
    by destruct (existing_descriptions (registry s) !! n).
  - intros n Hn Hplain. rewrite (Hreg n), existing_descriptions_lookup, Hplain.
    unfold registered_tool. by rewrite Hn.
Qed.

(** X18. A call to a tool whose name holds no hyphen triggers no scan: the
    request is handed on with the server as it was, to the browser client
    when the name starts with [browser_] and to the rest of the chain
    otherwise. A call to a hyphenated name whose scan loads nothing hands
    the request on with the registry and the change manager as they were,
    so a tool that can no longer be loaded is still dispatched to its old
    registration. *)
Theorem on_call_tool_without_reload (w : world) (tools_dir_name now : string)
    (browser_call_tool : context → ToolResult)
    (call_next : context → server → ToolResult * server) (ctx : context) (s : server) :
  (str_contains "-" (name ctx) = false →
   on_call_tool w tools_dir_name now browser_call_tool call_next ctx s =
     Some (if String.prefix "browser_" (name ctx) then (browser_call_tool ctx, s)
           else call_next ctx s)) ∧
  (∀ s1, str_contains "-" (name ctx) = true →
     scan_and_load_tools w (Some (name ctx)) s = Some (∅, s1) →
     on_call_tool w tools_dir_name now browser_call_tool call_next ctx s =
       Some (if String.prefix "browser_" (name ctx) then (browser_call_tool ctx, s1)
             else call_next ctx s1) ∧
     registry s1 = registry s ∧ change_manager s1 = change_manager s) ∧
  (str_contains "-" (name ctx) = true →
   scan_and_load_tools w (Some (name ctx)) s = None →
   on_call_tool w tools_dir_name now browser_call_tool call_next ctx s = None).
Proof.
  unfold on_call_tool, refresh_called_tool. split; [|split].
  - intros ->. by destruct (String.prefix "browser_" (name ctx)).
  - intros s1 -> Hscan. rewrite Hscan. rewrite map_size_empty. simpl.
    split; [by destruct (String.prefix "browser_" (name ctx))|].
    by apply (scan_and_load_tools_registry w (Some (name ctx)) s ∅ s1).
  - intros -> Hscan. by rewrite Hscan.
Qed.

(** X19. A call to a hyphenated name is served by what is on disk now. When
    the scan targeted at the name loads a non-empty set that holds the
    called tool, its descriptor validates, and the registry files validated
    tools under their loaded names, the rest of the chain runs on a server
    whose registry holds, under the called name, the tool just built from
    the loaded descriptor and bound to its new proxy; every unloaded name
    without a hyphen keeps its registration. *)
Theorem on_call_tool_serves_reloaded (w : world) (tools_dir_name now : string)
    (browser_call_tool : context → ToolResult)
    (call_next : context → server → ToolResult * server) (ctx : context) (s : server)
    (tools : gmap string tool_info) (s1 : server) (info : tool_info)
    (function_tool : FunctionTool) :
  str_contains "-" (name ctx) = true →
  scan_and_load_tools w (Some (name ctx)) s = Some (tools, s1) →
  tools !! name ctx = Some info →
  validated (heap s1) info = Some function_tool →
  keys_agree (heap s1) tools →
  ∃ s2,
    on_call_tool w tools_dir_name now browser_call_tool call_next ctx s =
      Some (if String.prefix "browser_" (name ctx) then (browser_call_tool ctx, s2)
            else call_next ctx s2) ∧
    registry s2 !! name ctx = Some function_tool ∧
    model_validate
      (without_provenance
         (<["fn" := PMethod (ToolProxy.proxy_id (proxy info))]> (heap s1 !!! tool_data info)))
      = Some function_tool ∧
    (∀ n, tools !! n = None → str_contains "-" n = false →
          registry s2 !! n = registry s !! n).
Proof.
  intros Hq Hscan Hn Hvalid Hkeys.
  exists (register_tools_to_mcp tools_dir_name now tools (Some (name ctx)) s1).2.
  destruct (registry_after_reconcile tools_dir_name now tools (Some (name ctx)) s1 Hkeys)
    as [Hloaded Hplain].
  destruct (scan_and_load_tools_registry w (Some (name ctx)) s tools s1 Hscan) as [Hreg _].
  split; [|split; [|split]].
  - unfold on_call_tool, refresh_called_tool. rewrite Hq, Hscan.
    assert (Hsize : size tools ≠ 0).
    { intros Hz. apply map_size_empty_iff in Hz. subst tools. by rewrite lookup_empty in Hn. }
    apply Nat.eqb_neq in Hsize. rewrite Hsize. simpl.
    by destruct (String.prefix "browser_" (name ctx)).
  - by rewrite (Hloaded _ info Hn), Hvalid.
  - exact Hvalid.
  - intros n Hnone Hp. rewrite (Hplain n Hnone Hp). by rewrite Hreg.
Qed.

(** X20. Listing the tools first brings the registry up to date with the
    whole plugin root. When the scan returns and the registry files
    validated tools under their loaded names, the rest of the chain runs on
    a server in which every scanned tool whose descriptor validates is
    registered under its name, every scanned tool whose descriptor does not
    validate has the registration it had, and every unloaded name without a
    hyphen keeps its registration; the reconciliation runs even when the
    scan loaded nothing. An exception of the scan propagates. *)
Theorem on_list_tools_registers (w : world) (tools_dir_name now : string)
    (call_next : context → server → ToolResult * server) (ctx : context) (s : server) :
  (∀ tools s1,
     scan_and_load_tools w None s = Some (tools, s1) →
     keys_agree (heap s1) tools →
     ∃ s2,
       on_list_tools w tools_dir_name now call_next ctx s = Some (call_next ctx s2) ∧
       s2 = (register_tools_to_mcp tools_dir_name now tools None s1).2 ∧
       (∀ n info, tools !! n = Some info →
          registry s2 !! n = match validated (heap s1) info with
                             | Some function_tool => Some function_tool
                             | None => registry s !! n
                             end) ∧
       (∀ n, tools !! n = None → str_contains "-" n = false →
             registry s2 !! n = registry s !! n)) ∧
  (scan_and_load_tools w None s = None →
   on_list_tools w tools_dir_name now call_next ctx s = None).
Proof.
  split.
  - intros tools s1 Hscan Hkeys.
    exists (register_tools_to_mcp tools_dir_name now tools None s1).2.
    destruct (registry_after_reconcile tools_dir_name now tools None s1 Hkeys)
      as [Hloaded Hplain].
    destruct (scan_and_load_tools_registry w None s tools s1 Hscan) as [Hreg _].
    split; [|split; [done|split]].
    + unfold on_list_tools. by rewrite Hscan.
    + intros n info Hn. rewrite (Hloaded n info Hn). by rewrite Hreg.
    + intros n Hn Hp. rewrite (Hplain n Hn Hp). by rewrite Hreg.
  - intros Hscan. unfold on_list_tools. by rewrite Hscan.
Qed.

End middleware_facts.

(** ** The middleware on the sample data *)
Section middleware_examples.
Import DynamicToolLoader DynamicToolMiddleware.

Lemma sample_call_scan_returns :
  sample_call_scan = Some (sample_call_tools, sample_call_server).
Proof. apply some_pair_eta. apply (bool_decide_unpack _). vm_compute. exact I. Qed.

Lemma sample_call_tools_eq :
  sample_call_tools = {[ "calc-add" := info_of 3 10 "calc" "calc-add" "calc-add";
                         "calc-mul" := info_of 4 11 "calc" "calc-mul" "calc-mul" ]}.
Proof. vm_compute. reflexivity. Qed.

Lemma sample_call_keys_agree :
  @keys_agree plain_registry (heap sample_call_server) sample_call_tools.
Proof.
  intros n info t Hn Ht. rewrite sample_call_tools_eq in Hn.
  apply lookup_insert_Some in Hn as [[<- <-] | [_ Hn]].
  - vm_compute in Ht. injection Ht as <-. reflexivity.
  - apply lookup_singleton_Some in Hn as [<- <-].
    vm_compute in Ht. injection Ht as <-. reflexivity.
Qed.

(** A call of [calc-add] on a fresh server: the scan loads the plugin, and
    the chain runs with [calc-add] registered and bound to its new proxy. *)
Lemma on_call_tool_serves_reloaded_witness :
  str_contains "-" (name sample_context) = true ∧
  sample_call_scan = Some (sample_call_tools, sample_call_server) ∧
  @keys_agree plain_registry (heap sample_call_server) sample_call_tools ∧
  ∃ s2,
    @on_call_tool plain_registry pyval sample_world "tools" "t" (fun _ => PNone) idle_chain
      sample_context (server_with ∅) = Some (PNone, s2) ∧
    registry s2 !! "calc-add" = Some (plain_tool_of "calc-add" "Add two numbers" 10).
Proof.
  split; [reflexivity|]. split; [exact sample_call_scan_returns|].
  split; [exact sample_call_keys_agree|].
  destruct (@on_call_tool_serves_reloaded plain_registry pyval sample_world "tools" "t"
              (fun _ => PNone) idle_chain sample_context (server_with ∅)
              sample_call_tools sample_call_server
              (info_of 3 10 "calc" "calc-add" "calc-add")
              (plain_tool_of "calc-add" "Add two numbers" 10))
    as (s2 & Hcall & Hreg & _).
  - reflexivity.
  - exact sample_call_scan_returns.
  - rewrite sample_call_tools_eq. reflexivity.
  - vm_compute. reflexivity.
  - exact sample_call_keys_agree.
  - exists s2. split; [exact Hcall | exact Hreg].
Defined.

End middleware_examples.

(** ** Names: from a plugin directory to its tools and back *)
Section naming_facts.
Import ToolEnvironmentManager.

Lemma string_app_cons (c : Ascii.ascii) (a b : string) :
  String c a +:+ b = String c (a +:+ b).
Proof. reflexivity. Qed.

Lemma str_contains_cons (sub : string) (c : Ascii.ascii) (s : string) :
  str_contains sub (String c s) = String.prefix sub (String c s) || str_contains sub s.
Proof. reflexivity. Qed.

Lemma prefix_cons (a c : Ascii.ascii) (s : string) :
  String.prefix (String a "") (String c s) = Ascii.eqb a c.
Proof.
  change (String.prefix (String a "") (String c s))
    with (if Ascii.ascii_dec a c then String.prefix "" s else false).
  destruct (Ascii.ascii_dec a c) as [-> | Hne].
  - rewrite Ascii.eqb_refl. by destruct s.
  - symmetry. by apply Ascii.eqb_neq.
Qed.

Lemma prefix_hyphen_cons (c : Ascii.ascii) (s : string) :
  String.prefix "-" (String c s) = Ascii.eqb c hyphen.
Proof. rewrite Ascii.eqb_sym. apply prefix_cons. Qed.

Lemma split_head_no_hyphen (s : string) : str_contains "-" (split_head hyphen s) = false.
Proof.
  induction s as [|c s IH]; [reflexivity|]. simpl split_head.
  destruct (Ascii.eqb c hyphen) eqn:Hc; [reflexivity|].
  by rewrite str_contains_cons, prefix_hyphen_cons, Hc, IH.
Qed.

Lemma split_head_app (n f : string) :
  str_contains "-" n = false → split_head hyphen (n +:+ "-" +:+ f) = n.
Proof.
  induction n as [|c n IH]; [done|].
  rewrite str_contains_cons, prefix_hyphen_cons. intros [Hc Hn]%orb_false_iff.
  rewrite string_app_cons. simpl split_head. by rewrite Hc, IH.
Qed.

Lemma str_contains_app_hyphen (n f : string) : str_contains "-" (n +:+ "-" +:+ f) = true.
Proof.
  induction n as [|c n IH].
  - change ("" +:+ "-" +:+ f) with (String hyphen f).
    by rewrite str_contains_cons, prefix_hyphen_cons, Ascii.eqb_refl.
  - by rewrite string_app_cons, str_contains_cons, IH, orb_true_r.
Qed.

Lemma word_tail_no_hyphen (s : string) : word_tail s = true → str_contains "-" s = false.
Proof.
  induction s as [|c s IH]; [done|]. simpl word_tail.
  rewrite str_contains_cons, prefix_hyphen_cons.
  intros [[Hc Hs]%andb_true_iff | [Hc Hs]%andb_true_iff]%orb_true_iff.
  - rewrite (IH Hs), orb_false_r. destruct (Ascii.eqb_spec c hyphen) as [-> | _]; [|done].
    vm_compute in Hc. discriminate Hc.
  - apply Ascii.eqb_eq in Hc as ->. apply String.eqb_eq in Hs as ->. reflexivity.
Qed.

(** X21. A name that [tool_environment_create] accepts is safe to route by.
    It is not empty, does not start with an underscore and holds no hyphen;
    a directory of that name is never filtered out by the scan; every tool
    exported from it has a hyphenated name, so that a call of the tool
    triggers a refresh, and the part of that name before the first hyphen,
    which is what the refresh targets and where the proxy runs, is the
    directory's name again. *)
Theorem accepted_name_routes (environment_name : string) :
  environment_name_matches environment_name = true →
  environment_name ≠ "" ∧
  String.prefix "_" environment_name = false ∧
  str_contains "-" environment_name = false ∧
  (∀ (tools_dir : list Path) (D : Path),
     D ∈ tools_dir → is_dir D = true → name D = environment_name →
     D ∈ get_tool_directories tools_dir) ∧
  (∀ function_name,
     str_contains "-" (tool_loader_script.tool_name environment_name function_name) = true ∧
     split_head hyphen (tool_loader_script.tool_name environment_name function_name)
       = environment_name).
Proof.
  destruct environment_name as [|c s]; [done|]. simpl environment_name_matches.
  intros [Hc Hs]%andb_true_iff.
  assert (Hunderscore : String.prefix "_" (String c s) = false).
  { change "_" with (String (Ascii.ascii_of_nat 95) ""). rewrite prefix_cons.
    destruct (Ascii.eqb_spec (Ascii.ascii_of_nat 95) c) as [<- | _]; [|done].
    vm_compute in Hc. discriminate Hc. }
  assert (Hhyphen : str_contains "-" (String c s) = false).
  { rewrite str_contains_cons, prefix_hyphen_cons, (word_tail_no_hyphen s Hs), orb_false_r.
    destruct (Ascii.eqb_spec c hyphen) as [-> | _]; [|done].
    vm_compute in Hc. discriminate Hc. }
  split; [done|]. split; [exact Hunderscore|]. split; [exact Hhyphen|]. split.
  - intros tools_dir D HD Hdir Hname. unfold get_tool_directories.
    rewrite list_elem_of_In, filter_In, <- list_elem_of_In. split; [done|].
    rewrite Hdir, Hname, Hunderscore.
    destruct (String.eqb_spec (String c s) "__pycache__") as [Heq | _]; [|done].
    rewrite Heq in Hunderscore. vm_compute in Hunderscore. discriminate Hunderscore.
  - intros function_name. unfold tool_loader_script.tool_name.
    change (String.eqb (String c s) "") with false. simpl negb. cbv iota.
    split; [apply str_contains_app_hyphen | by apply split_head_app].
Qed.

(** The template name of the documentation is accepted, and its tool
    [calculate_sum] routes back to it. *)
Lemma accepted_name_routes_witness :
  environment_name_matches "my_calculator" = true ∧
  split_head hyphen (tool_loader_script.tool_name "my_calculator" "calculate_sum")
    = "my_calculator".
Proof.
  split; [reflexivity|].
  destruct (accepted_name_routes "my_calculator" eq_refl) as (_ & _ & _ & _ & Hroute).
  destruct (Hroute "calculate_sum") as [_ Hhead]. exact Hhead.
Defined.

(** X22. A directory whose name holds a hyphen (the scan enumerates such
    directories) cannot be refreshed by name: for every tool exported from
    it, the part of the tool's name before the first hyphen differs from the
    directory's name, so the load targeted by a call of that tool passes
    the directory over and leaves the cache entry of its name as it was. *)
Theorem hyphenated_directory_unroutable (w : world) (D : Path) (function_name : string)
    (st : load_state) :
  str_contains "-" (name D) = true →
  let called := tool_loader_script.tool_name (name D) function_name in
  split_head hyphen called ≠ name D ∧
  load_directory w (Some (split_head hyphen called)) D st = Some st ∧
  (∀ heap0 cache0 st',
     load_all_tools w (Some (split_head hyphen called)) heap0 cache0 = Some st' →
     tools_cache st' !! name D = cache0 !! name D).
Proof.
  intros Hhyphen called.
  assert (Hne : split_head hyphen called ≠ name D).
  { intros Heq. pose proof (split_head_no_hyphen called) as Hno.
    rewrite Heq in Hno. congruence. }
  split; [exact Hne|]. split; [by apply load_directory_skipped|].
  intros heap0 cache0 st' Hload. unfold load_all_tools in Hload.
  destruct (load_directories_effect w (Some (split_head hyphen called))
              (get_tool_directories (listing w)) _ _ Hload) as (Hother & _).
  apply Hother. intros D' [_ [Hnone | Hsome]]%elem_of_requested; [done|].
  injection Hsome as Hsome. congruence.
Qed.

(** A directory [my-tool] with a function [run]: the call of [my-tool-run]
    targets [my]. *)
Lemma hyphenated_directory_unroutable_witness :
  str_contains "-" "my-tool" = true ∧
  split_head hyphen (tool_loader_script.tool_name "my-tool" "run") ≠ "my-tool".
Proof.
  split; [reflexivity|].
  destruct (hyphenated_directory_unroutable (DynamicToolLoader.env sample_world)
              {| name := "my-tool"; is_dir := true; mtimes := ∅ |} "run"
              sample_loaded eq_refl) as [Hne _].
  exact Hne.
Defined.

End naming_facts.

(** ** Change tracker: the summary after an update *)
Section change_summary_facts.
Import ToolChangeManager.



End change_summary_facts.
